(** * Plan Magic: the assignment-problem compiler and decoder

    A shallow embedding of [solve] from
    [plan-magic/src/components/LPSolver.vue] (with the part of [App.vue]
    that receives its [solution-updated] event), and the properties of the
    extraction, guard, encoding and decoding stages.

    Conventions of the embedding.
    - A JavaScript string is a [string] whose characters are read as code
      units in the range 0..255 (Latin-1); [trim] and [toLowerCase] are the
      ECMAScript functions restricted to that range.
    - A JavaScript number is a [number]: NaN, the two infinities, or a finite
      value carried as a rational.  [solve] performs no arithmetic on
      numbers, only comparisons and copies, so every IEEE double is covered
      (negative zero behaves as zero in every test that [solve] makes).
    - [parseFloat] on strings and [Number::toString] belong to the JavaScript
      runtime; they are the two fields of the class [JsRuntime], and every
      theorem holds for every runtime.  [RefRuntime] is an executable
      instance used to run the pipeline on examples.
    - A [for (let i = lo; i < hi; i++)] loop is a left fold over
      [seq lo (hi - lo)] ([for_range]); [push] appends at the end.
    - The external solver is an oracle from the LP document to an outcome
      (the loader throws, [highs.solve] throws, or a raw result is
      returned); [await] points are not interleaved with other handlers. *)

From Stdlib Require Import QArith Ascii String.
From stdpp Require Import gmap strings list sorting pretty.

Close Scope Q_scope.
Open Scope string_scope.
Open Scope list_scope.
Open Scope nat_scope.

(** ** JavaScript strings *)

Module JsString.

Definition nl : string := String "010"%char "".

(** White space and line terminators below code unit 256:
    TAB, LF, VT, FF, CR, SPACE and NBSP. *)
Definition is_white_space (c : ascii) : bool :=
  match c with
  | "009" | "010" | "011" | "012" | "013" | " " | "160" => true
  | _ => false
  end%char.

Fixpoint trimStart (s : string) : string :=
  match s with
  | String c s' => if is_white_space c then trimStart s' else s
  | "" => ""
  end.

Fixpoint trimEnd (s : string) : string :=
  match s with
  | String c s' =>
      match trimEnd s' with
      | "" => if is_white_space c then "" else String c ""
      | t => String c t
      end
  | "" => ""
  end.

Definition trim (s : string) : string := trimEnd (trimStart s).

(** Lower-casing of one code unit: A-Z, and the Latin-1 capitals
    0xC0-0xDE except the multiplication sign 0xD7. *)
Definition lower_char (c : ascii) : ascii :=
  let n := nat_of_ascii c in
  if ((65 <=? n) && (n <=? 90)) || ((192 <=? n) && (n <=? 222) && negb (n =? 215))
  then ascii_of_nat (n + 32)
  else c.

Fixpoint toLowerCase (s : string) : string :=
  match s with
  | String c s' => String (lower_char c) (toLowerCase s')
  | "" => ""
  end.

(** [s.includes(t)]: [t] occurs in [s] at some position. *)
Fixpoint includes (s t : string) : bool :=
  String.prefix t s ||
  match s with
  | String _ s' => includes s' t
  | "" => false
  end.

(** [l.join(sep)] *)
Fixpoint join (sep : string) (l : list string) : string :=
  match l with
  | [] => ""
  | [x] => x
  | x :: l' => x +:+ sep +:+ join sep l'
  end.

(** Concatenation of a list of pieces, left to right. *)
Definition concat_all (l : list string) : string := foldr String.app "" l.

End JsString.
Export JsString.

(** ** JavaScript numbers *)

Inductive number : Type :=
  | NaN
  | PosInfinity
  | NegInfinity
  | Fin (q : Q).

Definition zero : number := Fin 0.
Definition half : number := Fin (1 # 2).

(** [Boolean(n)]: NaN and zero are falsy. *)
Definition num_truthy (n : number) : bool :=
  match n with
  | NaN => false
  | Fin q => negb (Qeq_bool q 0)
  | _ => true
  end.

(** [a < b] *)
Definition num_lt (a b : number) : bool :=
  match a, b with
  | NaN, _ | _, NaN => false
  | PosInfinity, _ => false
  | _, NegInfinity => false
  | NegInfinity, _ => true
  | Fin _, PosInfinity => true
  | Fin p, Fin q => negb (Qle_bool q p)
  end.

(** [a > b] *)
Definition num_gt (a b : number) : bool := num_lt b a.

(** [a <= b] *)
Definition num_le (a b : number) : bool :=
  match a, b with
  | NaN, _ | _, NaN => false
  | NegInfinity, _ => true
  | _, PosInfinity => true
  | PosInfinity, _ => false
  | Fin _, NegInfinity => false
  | Fin p, Fin q => Qle_bool p q
  end.

(** [a !== b] *)
Definition num_strict_neq (a b : number) : bool :=
  match a, b with
  | NaN, _ | _, NaN => true
  | PosInfinity, PosInfinity | NegInfinity, NegInfinity => false
  | Fin p, Fin q => negb (Qeq_bool p q)
  | _, _ => true
  end.

(** [a || b] on numbers *)
Definition num_or (a b : number) : number := if num_truthy a then a else b.

Definition is_finite (n : number) : bool :=
  match n with Fin _ => true | _ => false end.

(** ** Cells of the sheet ([any]) *)

Inductive cell : Type :=
  | CUndefined
  | CNull
  | CBool (b : bool)
  | CNum (n : number)
  | CStr (s : string).

Definition cell_truthy (c : cell) : bool :=
  match c with
  | CUndefined | CNull => false
  | CBool b => b
  | CNum n => num_truthy n
  | CStr s => negb (String.eqb s "")
  end.

(** The runtime's number parsing and printing. *)
Class JsRuntime : Type := {
  number_to_string : number -> string;
  parseFloat_string : string -> number
}.

(** ** Loops *)

Definition for_range {S : Type} (lo hi : nat) (body : nat -> S -> S) (s : S) : S :=
  fold_left (fun acc i => body i acc) (seq lo (hi - lo)) s.

Definition push {A : Type} (l : list A) (x : A) : list A := l ++ [x].

(** ** Data model (LPSolver.vue, lines 5-31) *)

Record ProjectLimits : Type := { min : number; max : number }.

Record Assignment : Type := {
  studentName : string;
  projectIndex : nat;
  weight : number
}.

(** A property of a solver record: not there, there with value
    [undefined], or there with a value. *)
Inductive field (A : Type) : Type :=
  | Absent
  | Undefined
  | Value (v : A).
Arguments Absent {A}.
Arguments Undefined {A}.
Arguments Value {A} v.

Record Column : Type := { Primal : field number }.

Record RawResult : Type := {
  Status : option string;
  ObjectiveValue : option number;
  Columns : option (gmap string Column)
}.

Definition ExcelRow : Type := list (string * cell).

Record Props : Type := {
  tableData : list ExcelRow;
  rawData : list (option (list cell));
  headers : list string;
  projectLimits : list ProjectLimits
}.

(** The refs of the component, the [solution] ref of [App.vue] that the
    [solution-updated] handler overwrites, and a trace of what left the
    component: the payloads emitted and the documents handed to the solver. *)
Record State : Type := {
  isSolving : bool;
  solution : list Assignment;
  objectiveValue : option number;
  solveStatus : string;
  errorMessage : string;
  App_solution : list Assignment;
  emitted : list (list Assignment);
  solver_inputs : list string
}.

Definition set_isSolving (v : bool) (st : State) : State :=
  {| isSolving := v; solution := solution st; objectiveValue := objectiveValue st;
     solveStatus := solveStatus st; errorMessage := errorMessage st;
     App_solution := App_solution st; emitted := emitted st;
     solver_inputs := solver_inputs st |}.

Definition set_solution (v : list Assignment) (st : State) : State :=
  {| isSolving := isSolving st; solution := v; objectiveValue := objectiveValue st;
     solveStatus := solveStatus st; errorMessage := errorMessage st;
     App_solution := App_solution st; emitted := emitted st;
     solver_inputs := solver_inputs st |}.

Definition set_objectiveValue (v : option number) (st : State) : State :=
  {| isSolving := isSolving st; solution := solution st; objectiveValue := v;
     solveStatus := solveStatus st; errorMessage := errorMessage st;
     App_solution := App_solution st; emitted := emitted st;
     solver_inputs := solver_inputs st |}.

Definition set_solveStatus (v : string) (st : State) : State :=
  {| isSolving := isSolving st; solution := solution st; objectiveValue := objectiveValue st;
     solveStatus := v; errorMessage := errorMessage st;
     App_solution := App_solution st; emitted := emitted st;
     solver_inputs := solver_inputs st |}.

Definition set_errorMessage (v : string) (st : State) : State :=
  {| isSolving := isSolving st; solution := solution st; objectiveValue := objectiveValue st;
     solveStatus := solveStatus st; errorMessage := v;
     App_solution := App_solution st; emitted := emitted st;
     solver_inputs := solver_inputs st |}.

(** [emit('solution-updated', v)]: App.vue runs [solution = $event]. *)
Definition emit_solution_updated (v : list Assignment) (st : State) : State :=
  {| isSolving := isSolving st; solution := solution st; objectiveValue := objectiveValue st;
     solveStatus := solveStatus st; errorMessage := errorMessage st;
     App_solution := v; emitted := push (emitted st) v;
     solver_inputs := solver_inputs st |}.

Definition record_solver_input (doc : string) (st : State) : State :=
  {| isSolving := isSolving st; solution := solution st; objectiveValue := objectiveValue st;
     solveStatus := solveStatus st; errorMessage := errorMessage st;
     App_solution := App_solution st; emitted := emitted st;
     solver_inputs := push (solver_inputs st) doc |}.

(** ** Exceptions and the state-and-exception monad of the [try] block *)

Inductive Thrown : Type :=
  | ThrownError (message : string)
  | ThrownOther.

Definition M (A : Type) : Type := State -> (Thrown + A) * State.

Definition ret {A : Type} (a : A) : M A := fun st => (inr a, st).

Definition bind {A B : Type} (m : M A) (k : A -> M B) : M B :=
  fun st =>
    match m st with
    | (inl e, st') => (inl e, st')
    | (inr a, st') => k a st'
    end.

Definition throw {A : Type} (e : Thrown) : M A := fun st => (inl e, st).

Definition modify (f : State -> State) : M unit := fun st => (inr tt, f st).

Definition when (b : bool) (m : M unit) : M unit := if b then m else ret tt.

Declare Scope js_scope.
Delimit Scope js_scope with js.
Notation "'let*' x := m 'in' k" := (bind m (fun x => k))
  (at level 10, x pattern, m at level 100, k at level 200) : js_scope.
Notation "m ;; k" := (bind m (fun _ => k))
  (at level 100, k at level 200, right associativity) : js_scope.

(** The solver port: what [import('highs')], the loader and [highs.solve]
    do with a document. *)
Inductive SolverOutcome : Type :=
  | LoadFailed (e : Thrown)
  | SolveFailed (e : Thrown)
  | Solved (r : RawResult).

Definition Solver : Type := string -> SolverOutcome.

(** ** The pipeline of [solve] (LPSolver.vue, lines 33-220) *)

Open Scope js_scope.

(** [x_${i}_${j}] *)
Definition varName (i j : nat) : string :=
  "x_" +:+ pretty i +:+ "_" +:+ pretty j.

(** Line 142: [ 0 <= x_${i}_${j} <= 1\n] *)
Definition bound_line (i j : nat) : string :=
  " 0 <= " +:+ varName i j +:+ " <= 1" +:+ nl.

(** Line 149: [ x_${i}_${j}\n] *)
Definition binary_line (i j : nat) : string :=
  " " +:+ varName i j +:+ nl.

(** [row[j]] *)
Definition row_get (row : list cell) (j : nat) : cell :=
  default CUndefined (row !! j).

(** [weights[i]?.[j] ?? 0] *)
Definition weight_at (weights : list (list number)) (i j : nat) : number :=
  match weights !! i with
  | Some studentWeights => default zero (studentWeights !! j)
  | None => zero
  end.

(** [s || d] on a possibly missing string *)
Definition string_or (s : option string) (d : string) : string :=
  match s with
  | Some v => if String.eqb v "" then d else v
  | None => d
  end.

(** Lines 33-37. *)
Definition canSolve (P : Props) : bool :=
  (0 <? length (tableData P)) &&
  (0 <? length (projectLimits P)) &&
  (Z.of_nat (length (projectLimits P)) =? Z.of_nat (length (headers P)) - 1)%Z.

Section Pipeline.

Context `{RT : JsRuntime}.

(** [String(c)] *)
Definition String_of (c : cell) : string :=
  match c with
  | CUndefined => "undefined"
  | CNull => "null"
  | CBool true => "true"
  | CBool false => "false"
  | CNum n => number_to_string n
  | CStr s => s
  end.

(** [parseFloat(c)]: the argument is converted to a string first; the
    strings of [undefined], [null] and the booleans have no numeric
    prefix, and the string of a number reads back as that number. *)
Definition parseFloat (c : cell) : number :=
  match c with
  | CNum n => n
  | CStr s => parseFloat_string s
  | _ => NaN
  end.

(** Line 61: [String(row[0] || '').trim()] *)
Definition name_of_row (row : list cell) : string :=
  let c := row_get row 0 in
  trim (String_of (if cell_truthy c then c else CStr "")).

(** Line 69: [parseFloat(row[j]) || 0] *)
Definition weight_of_cell (c : cell) : number :=
  num_or (parseFloat c) zero.

(** Lines 65-71. *)
Definition row_weights (headers : list string) (row : list cell) : list number :=
  for_range 1 (length headers)
    (fun j studentWeights => push studentWeights (weight_of_cell (row_get row j))) [].

(** Lines 53-74: the two parallel arrays [students] and [weights]. *)
Definition extract (rawData : list (option (list cell))) (headers : list string)
  : list string * list (list number) :=
  for_range 0 (length rawData)
    (fun i '(students, weights) =>
       match rawData !! i with
       | Some (Some row) =>
           if length row =? 0 then (students, weights)
           else
             let studentName := name_of_row row in
             if String.eqb studentName "" then (students, weights)
             else (push students studentName, push weights (row_weights headers row))
       | _ => (students, weights)
       end)
    ([], []).

(** Lines 93-103. *)
Definition objectiveTerms (weights : list (list number)) (numStudents numProjects : nat)
  : list string :=
  for_range 0 numStudents
    (fun i terms =>
       for_range 0 numProjects
         (fun j terms =>
            let varName := varName i j in
            let weight := weight_at weights i j in
            if num_strict_neq weight zero
            then push terms (number_to_string weight +:+ " " +:+ varName)
            else terms)
         terms)
    [].

(** Lines 109-115. *)
Definition student_constraints (numStudents numProjects : nat) (lpProblem : string) : string :=
  for_range 0 numStudents
    (fun i lpProblem =>
       let constraintTerms :=
         for_range 0 numProjects (fun j t => push t (varName i j)) [] in
       lpProblem +:+
         (" student_" +:+ pretty i +:+ ": " +:+ join " + " constraintTerms +:+ " = 1" +:+ nl))
    lpProblem.

(** Lines 118-135. *)
Definition project_constraints (limits : list ProjectLimits)
    (numStudents numProjects : nat) (lpProblem : string) : string :=
  for_range 0 numProjects
    (fun j lpProblem =>
       let constraintTerms :=
         for_range 0 numStudents (fun i t => push t (varName i j)) [] in
       match limits !! j with
       | None => lpProblem
       | Some projectLimit =>
           let minLimit := min projectLimit in
           let maxLimit := max projectLimit in
           let lpProblem :=
             if num_gt minLimit zero
             then lpProblem +:+
                    (" project_" +:+ pretty j +:+ "_min: " +:+ join " + " constraintTerms
                     +:+ " >= " +:+ number_to_string minLimit +:+ nl)
             else lpProblem in
           if num_lt maxLimit PosInfinity
           then lpProblem +:+
                  (" project_" +:+ pretty j +:+ "_max: " +:+ join " + " constraintTerms
                   +:+ " <= " +:+ number_to_string maxLimit +:+ nl)
           else lpProblem
       end)
    lpProblem.

(** Lines 140-144 and 147-151: one line per variable. *)
Definition per_variable (line : nat -> nat -> string)
    (numStudents numProjects : nat) (lpProblem : string) : string :=
  for_range 0 numStudents
    (fun i lpProblem =>
       for_range 0 numProjects (fun j lpProblem => lpProblem +:+ line i j) lpProblem)
    lpProblem.

(** Lines 89-153: the document in CPLEX LP format. *)
Definition formulate (weights : list (list number)) (limits : list ProjectLimits)
    (numStudents numProjects : nat) : string :=
  let lpProblem := "Minimize" +:+ nl in
  let lpProblem := lpProblem +:+ " obj:" in
  let objectiveTerms := objectiveTerms weights numStudents numProjects in
  let lpProblem :=
    lpProblem +:+
      (" " +:+ (if 0 <? length objectiveTerms then join " + " objectiveTerms else "0")
       +:+ nl) in
  let lpProblem := lpProblem +:+ ("Subject To" +:+ nl) in
  let lpProblem := student_constraints numStudents numProjects lpProblem in
  let lpProblem := project_constraints limits numStudents numProjects lpProblem in
  let lpProblem := lpProblem +:+ ("Bounds" +:+ nl) in
  let lpProblem := per_variable bound_line numStudents numProjects lpProblem in
  let lpProblem := lpProblem +:+ ("Binary" +:+ nl) in
  let lpProblem := per_variable binary_line numStudents numProjects lpProblem in
  lpProblem +:+ "End".

End Pipeline.

(** ** Decoding the raw result (lines 176-212) *)

(** Line 180. *)
Definition isOptimalOrFeasible (status : string) : bool :=
  String.eqb status "Optimal" || includes (toLowerCase status) "feasible".

(** Line 194: [result.Columns?.[varName]] *)
Definition column_of (result : RawResult) (name : string) : option Column :=
  match Columns result with
  | Some columns => columns !! name
  | None => None
  end.

(** Line 196: [column && 'Primal' in column && column.Primal !== undefined
    && column.Primal > 0.5] *)
Definition primal_above_half (column : option Column) : bool :=
  match column with
  | Some c =>
      match Primal c with
      | Value p => num_gt p half
      | Absent | Undefined => false
      end
  | None => false
  end.

(** Lines 192-204: the inner loop, for one student. *)
Definition student_assignments (result : RawResult) (i : nat) (studentName : string)
    (studentWeights : list number) (numProjects : nat)
    (assignments : list Assignment) : list Assignment :=
  for_range 0 numProjects
    (fun j assignments =>
       let varName := varName i j in
       let column := column_of result varName in
       if primal_above_half column
       then push assignments
              {| studentName := studentName;
                 projectIndex := j;
                 weight := default zero (studentWeights !! j) |}
       else assignments)
    assignments.

(** Lines 186-205. *)
Definition extract_assignments (result : RawResult) (students : list string)
    (weights : list (list number)) (numStudents numProjects : nat) : list Assignment :=
  for_range 0 numStudents
    (fun i assignments =>
       match students !! i, weights !! i with
       | Some studentName, Some studentWeights =>
           if String.eqb studentName "" then assignments
           else student_assignments result i studentName studentWeights numProjects assignments
       | _, _ => assignments
       end)
    [].

(** Line 210: [${result.Status}] *)
Definition status_text (result : RawResult) : string :=
  match Status result with
  | Some s => s
  | None => "undefined"
  end.

(** Lines 176-212. *)
Definition decode (result : RawResult) (students : list string)
    (weights : list (list number)) (numStudents numProjects : nat) : M unit :=
  modify (set_solveStatus (string_or (Status result) "Unknown"));;
  let status := string_or (Status result) "" in
  if isOptimalOrFeasible status then
    modify (set_objectiveValue (Some (default zero (ObjectiveValue result))));;
    let assignments := extract_assignments result students weights numStudents numProjects in
    modify (set_solution assignments);;
    modify (emit_solution_updated assignments)
  else
    modify (set_errorMessage
              ("Solver status: " +:+ status_text result
               +:+ ". The problem may be infeasible or unbounded."));;
    modify (emit_solution_updated []).

(** ** [solve] and the watcher *)

(** Lines 158-172. *)
Definition call_highs (highs : Solver) (lpProblem : string) : M RawResult :=
  match highs lpProblem with
  | LoadFailed e => throw e
  | SolveFailed e => modify (record_solver_input lpProblem);; throw e
  | Solved r => modify (record_solver_input lpProblem);; ret r
  end.

(** Line 216. *)
Definition message_of (error : Thrown) : string :=
  match error with
  | ThrownError message => message
  | ThrownOther => "Unknown error occurred"
  end.

Section Solve.

Context `{RT : JsRuntime}.

(** Lines 76-78. *)
Definition require_students (students : list string) : M unit :=
  when (length students =? 0)
    (throw (ThrownError "No valid students found in the data")).

(** Lines 84-86. *)
Definition require_dimensions (weights : list (list number)) (numProjects : nat) : M unit :=
  when (existsb (fun w => negb (length w =? numProjects)) weights)
    (throw (ThrownError "Inconsistent number of project weights")).

(** Lines 76-212: the [try] block once [students] and [weights] are filled. *)
Definition after_extraction (students : list string) (weights : list (list number))
    (limits : list ProjectLimits) (highs : Solver) : M unit :=
  require_students students;;
  let numStudents := length students in
  let numProjects := length limits in
  require_dimensions weights numProjects;;
  let lpProblem := formulate weights limits numStudents numProjects in
  let* result := call_highs highs lpProblem in
  decode result students weights numStudents numProjects.

(** Lines 52-212: the body of the [try] block. *)
Definition try_block (P : Props) (highs : Solver) : M unit :=
  let '(students, weights) := extract (rawData P) (headers P) in
  after_extraction students weights (projectLimits P) highs.

(** Lines 45-49. *)
Definition reset (st : State) : State :=
  let st := set_isSolving true st in
  let st := set_errorMessage "" st in
  let st := set_solution [] st in
  let st := set_objectiveValue None st in
  set_solveStatus "" st.

(** Lines 39-220. *)
Definition solve (P : Props) (highs : Solver) (st : State) : State :=
  if negb (canSolve P) then
    set_errorMessage "Cannot solve: Missing data or project limits" st
  else
    let st := reset st in
    let st :=
      match try_block P highs st with
      | (inl error, st) => set_errorMessage (message_of error) st
      | (inr _, st) => st
      end in
    set_isSolving false st.

End Solve.

(** Lines 223-229: the watcher on [tableData] and [projectLimits]. *)
Definition on_inputs_changed (st : State) : State :=
  let st := set_solution [] st in
  let st := set_objectiveValue None st in
  let st := set_solveStatus "" st in
  let st := set_errorMessage "" st in
  emit_solution_updated [] st.

Definition initial_state : State :=
  {| isSolving := false; solution := []; objectiveValue := None;
     solveStatus := ""; errorMessage := "";
     App_solution := []; emitted := []; solver_inputs := [] |}.

(** ** A reference runtime

    [Number::toString] for finite values with a terminating decimal
    expansion (plain notation, at most 20 fractional digits) and
    [parseFloat] on strings following the grammar of StrDecimalLiteral,
    with the exact decimal value.  Rounding to a double and the exponent
    notation of very large and very small magnitudes are outside it. *)

Module RefRuntime.

Definition digit_char (d : Z) : ascii := ascii_of_nat (48 + Z.to_nat d).

Fixpoint fraction_digits (fuel : nat) (r d : Z) : string :=
  match fuel with
  | O => ""
  | S fuel' =>
      if (r =? 0)%Z then ""
      else String (digit_char (10 * r / d)) (fraction_digits fuel' ((10 * r) mod d) d)
  end.

Definition print_number (n : number) : string :=
  match n with
  | NaN => "NaN"
  | PosInfinity => "Infinity"
  | NegInfinity => "-Infinity"
  | Fin q =>
      let d := Zpos (Qden q) in
      let a := Z.abs (Qnum q) in
      let sign := if (Qnum q <? 0)%Z then "-" else "" in
      let frac := fraction_digits 20 (a mod d) d in
      sign +:+ pretty (a / d)%Z +:+ (if String.eqb frac "" then "" else "." +:+ frac)
  end.

Definition digit_of (c : ascii) : option Z :=
  let n := nat_of_ascii c in
  if (48 <=? n) && (n <=? 57) then Some (Z.of_nat (n - 48)) else None.

(** The longest run of digits at the front of [s]: its value continuing
    [acc], how many digits were read, and the rest of the string. *)
Fixpoint read_digits (s : string) (acc : Z) (count : nat) : Z * nat * string :=
  match s with
  | String c s' =>
      match digit_of c with
      | Some d => read_digits s' (10 * acc + d) (S count)
      | None => (acc, count, s)
      end
  | "" => (acc, count, s)
  end.

Definition read_sign (s : string) : bool * string :=
  match s with
  | String "-" s' => (true, s')
  | String "+" s' => (false, s')
  | _ => (false, s)
  end.

Definition read_exponent (s : string) : Z :=
  match s with
  | String c s' =>
      if Ascii.eqb c "e" || Ascii.eqb c "E" then
        let '(negative, s'') := read_sign s' in
        let '(e, count, _) := read_digits s'' 0 0 in
        if count =? 0 then 0%Z else if negative then (- e)%Z else e
      else 0%Z
  | "" => 0%Z
  end.

Definition scale (m e : Z) : Q :=
  if (0 <=? e)%Z then Qmake (m * 10 ^ e) 1
  else Qred (Qmake m (Z.to_pos (10 ^ (- e)))).

Definition parse_number (s : string) : number :=
  let '(negative, s1) := read_sign (trimStart s) in
  if String.prefix "Infinity" s1 then
    (if negative then NegInfinity else PosInfinity)
  else
    let '(int_part, int_count, s2) := read_digits s1 0 0 in
    let '(mantissa, frac_count, s3) :=
      match s2 with
      | String "." s2' =>
          let '(m, total, s3) := read_digits s2' int_part int_count in
          (m, total - int_count, s3)
      | _ => (int_part, 0, s2)
      end in
    if int_count + frac_count =? 0 then NaN
    else
      let e := (read_exponent s3 - Z.of_nat frac_count)%Z in
      Fin (scale (if negative then (- mantissa)%Z else mantissa) e).

#[global] Instance runtime : JsRuntime :=
  {| number_to_string := print_number; parseFloat_string := parse_number |}.

End RefRuntime.

(** ** The capacity editor (ProjectConfig.vue, lines 20-54) *)

(** [Math.max(a, b)] *)
Definition Math_max (a b : number) : number :=
  match a, b with
  | NaN, _ | _, NaN => NaN
  | _, _ => if num_lt a b then b else a
  end.

(** Lines 23-26: the limits of a new project. *)
Definition default_limits : ProjectLimits := {| min := Fin 0; max := Fin 10 |}.

(** Lines 34-43. *)
Definition updateMin (limits : list ProjectLimits) (projectIndex : nat) (value : number)
  : list ProjectLimits :=
  match limits !! projectIndex with
  | Some l =>
      let l := {| min := Math_max zero value; max := max l |} in
      let l := if num_gt (min l) (max l) then {| min := min l; max := min l |} else l in
      <[projectIndex := l]> limits
  | None => limits
  end.

(** Lines 45-54. *)
Definition updateMax (limits : list ProjectLimits) (projectIndex : nat) (value : number)
  : list ProjectLimits :=
  match limits !! projectIndex with
  | Some l =>
      let l := {| min := min l; max := Math_max zero value |} in
      let l := if num_lt (max l) (min l) then {| min := max l; max := max l |} else l in
      <[projectIndex := l]> limits
  | None => limits
  end.

(** ** Descriptions used in the statements *)

(** [t] occurs in [s] up to the case of letters. *)
Definition contains_ignoring_case (s t : string) : Prop :=
  exists pre mid post, s = pre +:+ mid +:+ post /\ toLowerCase mid = toLowerCase t.

(** The state after the accepting branch of [decode]. *)
Definition accepted_state (result : RawResult) (assignments : list Assignment)
    (st : State) : State :=
  emit_solution_updated assignments
    (set_solution assignments
       (set_objectiveValue (Some (default zero (ObjectiveValue result)))
          (set_solveStatus (string_or (Status result) "Unknown") st))).

(** The state after the rejecting branch of [decode]. *)
Definition rejected_state (result : RawResult) (st : State) : State :=
  emit_solution_updated []
    (set_errorMessage
       ("Solver status: " +:+ status_text result
        +:+ ". The problem may be infeasible or unbounded.")
       (set_solveStatus (string_or (Status result) "Unknown") st)).

(** The projects of student [i] whose variable is above the threshold. *)
Definition crossing (result : RawResult) (i numProjects : nat) : list nat :=
  List.filter (fun j => primal_above_half (column_of result (varName i j)))
    (seq 0 numProjects).

(** What the iteration for student [i] of the decoding loop appends. *)
Definition emitted_for (result : RawResult) (students : list string)
    (weights : list (list number)) (numProjects i : nat) : list Assignment :=
  match students !! i, weights !! i with
  | Some studentName, Some studentWeights =>
      if String.eqb studentName "" then []
      else student_assignments result i studentName studentWeights numProjects []
  | _, _ => []
  end.

Definition assignments_named (name : string) (l : list Assignment) : list Assignment :=
  List.filter (fun a => String.eqb (studentName a) name) l.

(** Students outer, projects inner: the order of the pairs [(i, j)]. *)
Definition pair_lt (p q : nat * nat) : Prop :=
  fst p < fst q \/ (fst p = fst q /\ snd p < snd q).

(** The invariant of a Project in the data model: [0 <= min <= max]. *)
Definition project_invariant (l : ProjectLimits) : bool :=
  num_le zero (min l) && num_le (min l) (max l).

Section Descriptions.

Context `{RT : JsRuntime}.

(** A row that the extraction loop passes over. *)
Definition row_is_skipped (r : option (list cell)) : bool :=
  match r with
  | Some row => (length row =? 0) || String.eqb (name_of_row row) ""
  | None => true
  end.


Definition kept_rows (rawData : list (option (list cell))) : list (list cell) :=
  flat_map (fun r => match r with
                     | Some row => if row_is_skipped r then [] else [row]
                     | None => []
                     end) rawData.

(** One iteration of the extraction loop, on the row it reads. *)
Definition extract_step (headers : list string) (r : option (option (list cell)))
    (acc : list string * list (list number)) : list string * list (list number) :=
  let '(students, weights) := acc in
  match r with
  | Some (Some row) =>
      if length row =? 0 then (students, weights)
      else
        let studentName := name_of_row row in
        if String.eqb studentName "" then (students, weights)
        else (push students studentName, push weights (row_weights headers row))
  | _ => (students, weights)
  end.

(** The pairs with a non-zero weight, students outer, projects inner. *)
Definition nonzero_pairs (weights : list (list number)) (numStudents numProjects : nat)
  : list (nat * nat) :=
  List.filter (fun '(i, j) => num_strict_neq (weight_at weights i j) zero)
    (list_prod (seq 0 numStudents) (seq 0 numProjects)).

Definition objective_term (weights : list (list number)) (p : nat * nat) : string :=
  number_to_string (weight_at weights (fst p) (snd p)) +:+ " " +:+ varName (fst p) (snd p).

Definition objective_line (weights : list (list number)) (numStudents numProjects : nat)
  : string :=
  " obj: " +:+
  match nonzero_pairs weights numStudents numProjects with
  | [] => "0"
  | pairs => join " + " (map (objective_term weights) pairs)
  end +:+ nl.

Definition student_line (numProjects i : nat) : string :=
  " student_" +:+ pretty i +:+ ": "
  +:+ join " + " (map (varName i) (seq 0 numProjects)) +:+ " = 1" +:+ nl.

Definition project_min_line (numStudents j : nat) (l : ProjectLimits) : string :=
  " project_" +:+ pretty j +:+ "_min: "
  +:+ join " + " (map (fun i => varName i j) (seq 0 numStudents))
  +:+ " >= " +:+ number_to_string (min l) +:+ nl.

Definition project_max_line (numStudents j : nat) (l : ProjectLimits) : string :=
  " project_" +:+ pretty j +:+ "_max: "
  +:+ join " + " (map (fun i => varName i j) (seq 0 numStudents))
  +:+ " <= " +:+ number_to_string (max l) +:+ nl.

(** What the iteration for project [j] of the capacity loop appends. *)
Definition project_lines (limits : list ProjectLimits) (numStudents j : nat) : list string :=
  match limits !! j with
  | Some l =>
      (if num_gt (min l) zero then [project_min_line numStudents j l] else [])
      ++ (if num_lt (max l) PosInfinity then [project_max_line numStudents j l] else [])
  | None => []
  end.

Definition constraint_lines (limits : list ProjectLimits) (numStudents numProjects : nat)
  : list string :=
  map (student_line numProjects) (seq 0 numStudents)
  ++ flat_map (project_lines limits numStudents) (seq 0 numProjects).

Definition variable_lines (line : nat -> nat -> string) (numStudents numProjects : nat)
  : list string :=
  map (fun p => line (fst p) (snd p)) (list_prod (seq 0 numStudents) (seq 0 numProjects)).

End Descriptions.

(** ** Sample inputs *)

Definition sample_props : Props :=
  {| tableData := [[]; []];
     rawData := [Some [CStr "Ana"; CNum (Fin 5); CStr "0"];
                 None;
                 Some [CStr "  "; CNum (Fin 1)];
                 Some [CStr " Bo "; CStr "n/a"; CNum (Fin 3)]];
     headers := ["Column 1"; "Column 2"; "Column 3"];
     projectLimits := [ {| min := Fin 0; max := Fin 1 |};
                        {| min := Fin 0; max := Fin 1 |} ] |}.

Definition column_with (p : number) : Column := {| Primal := Value p |}.

(** The solver's answer to [sample_props]: Ana on project 1, Bo on project 0. *)
Definition sample_result : RawResult :=
  {| Status := Some "Optimal";
     ObjectiveValue := Some (Fin 0);
     Columns := Some (<["x_0_0" := column_with (Fin 0)]>
                      (<["x_0_1" := column_with (Fin 1)]>
                       (<["x_1_0" := column_with (Fin 1)]>
                        (<["x_1_1" := column_with (Fin 0)]> ∅)))) |}.

(** What HiGHS returns for an infeasible model: no [Primal] in the columns. *)
Definition infeasible_result : RawResult :=
  {| Status := Some "Infeasible";
     ObjectiveValue := Some (Fin 0);
     Columns := Some (<["x_0_0" := {| Primal := Absent |}]> ∅) |}.

(** ** The rest of the application *)

(** *** LPSolver.vue: what the template shows (lines 233-340) *)

(** Line 233: [v-if="canSolve || solution.length > 0"] *)
Definition panel_visible (P : Props) (st : State) : bool :=
  canSolve P || (0 <? length (solution st)).

(** Line 238: [:disabled="!canSolve || isSolving"] *)
Definition button_disabled (P : Props) (st : State) : bool :=
  negb (canSolve P) || isSolving st.

(** Line 256: [v-if="errorMessage"] *)
Definition error_box_shown (st : State) : bool :=
  negb (String.eqb (errorMessage st) "").

(** Line 260: [v-if="solveStatus && !errorMessage"] *)
Definition status_box_shown (st : State) : bool :=
  negb (String.eqb (solveStatus st) "") && negb (error_box_shown st).

(** Line 331: [solution.filter(a => a.projectIndex === projectIndex).length] *)
Definition students_assigned (solution : list Assignment) (index : nat) : nat :=
  length (List.filter (fun a => projectIndex a =? index) solution).

(** *** Objects with string keys, in insertion order *)

(** [o[k] = v] *)
Fixpoint obj_set (o : ExcelRow) (k : string) (v : cell) : ExcelRow :=
  match o with
  | [] => [(k, v)]
  | (k', v') :: o' =>
      if String.eqb k' k then (k', v) :: o' else (k', v') :: obj_set o' k v
  end.

(** [o[k]], [None] for [undefined] *)
Fixpoint obj_get (o : ExcelRow) (k : string) : option cell :=
  match o with
  | [] => None
  | (k', v') :: o' => if String.eqb k' k then Some v' else obj_get o' k
  end.

(** [c ?? d] *)
Definition nullish_or (c d : cell) : cell :=
  match c with
  | CUndefined | CNull => d
  | _ => c
  end.

(** *** FileUpload.vue *)

Module FileUpload.

Record Refs : Type := {
  fileName : string;
  tableData : list ExcelRow;
  headers : list string;
  rawData : list (option (list cell));
  numberOfColumns : nat
}.

(** Lines 112-114: [Math.max(...arrayData.map(row => row ? row.length : 0))],
    or 0 for no row. *)
Definition maxColumns (arrayData : list (option (list cell))) : nat :=
  if 0 <? length arrayData
  then foldr Nat.max 0
         (map (fun row => match row with Some r => length r | None => 0 end) arrayData)
  else 0.

(** Lines 117-120: [Column 1], [Column 2], ... *)
Definition default_headers (maxColumns : nat) : list string :=
  for_range 0 maxColumns (fun i headers => push headers ("Column " +:+ pretty (i + 1))) [].

(** Lines 126-130: the object of one row. *)
Definition row_object (headers : list string) (rowData : list cell) : ExcelRow :=
  for_range 0 (length headers)
    (fun colIndex row =>
       match headers !! colIndex with
       | Some header => obj_set row header (nullish_or (row_get rowData colIndex) (CStr ""))
       | None => row
       end)
    [].

(** Lines 123-132. *)
Definition row_objects (headers : list string) (arrayData : list (option (list cell)))
  : list ExcelRow :=
  for_range 0 (length arrayData)
    (fun i rows =>
       let rowData := match arrayData !! i with
                      | Some (Some r) => r
                      | _ => []
                      end in
       push rows (row_object headers rowData))
    [].

(** Lines 109-138: the refs once the sheet is read as [arrayData]; the
    count sent with [columns-changed] is [numberOfColumns]. *)
Definition loaded (name : string) (arrayData : list (option (list cell))) : Refs :=
  let maxColumns := maxColumns arrayData in
  let headers := default_headers maxColumns in
  {| fileName := name;
     tableData := row_objects headers arrayData;
     headers := headers;
     rawData := arrayData;
     numberOfColumns := maxColumns |}.

(** Lines 147-156: the refs when reading the workbook throws. *)
Definition load_failed : Refs :=
  {| fileName := ""; tableData := []; headers := []; rawData := [];
     numberOfColumns := 0 |}.

Section Highlight.

Context `{RT : JsRuntime}.

(** Lines 30-59. *)
Definition isCellHighlighted (solution : option (list Assignment))
    (rawData : list (option (list cell))) (rowIndex colIndex : nat) : bool :=
  match solution with
  | None | Some [] => false
  | Some solution =>
      if colIndex =? 0 then false
      else
        match rawData !! rowIndex with
        | Some (Some row) =>
            if length row =? 0 then false
            else
              let name := name_of_row row in
              if String.eqb name "" then false
              else
                let index := colIndex - 1 in
                existsb
                  (fun assignment =>
                     let assignmentStudentName :=
                       trim (if String.eqb (studentName assignment) "" then ""
                             else studentName assignment) in
                     String.eqb assignmentStudentName name
                     && (projectIndex assignment =? index))
                  solution
        | _ => false
        end
  end.

End Highlight.

End FileUpload.

(** *** App.vue and the watcher of ProjectConfig.vue *)

(** App.vue, lines 27-29. *)
Definition numberOfProjects (numberOfColumns : nat) : nat :=
  if 0 <? numberOfColumns then numberOfColumns - 1 else 0.

(** ProjectConfig.vue, lines 20-32: the limits set when the number of
    projects changes. *)
Definition initial_limits (newCount : nat) : list ProjectLimits :=
  if 0 <? newCount then replicate newCount default_limits else [].

(** The refs of App.vue with those of the two components that feed the
    solver. *)
Record App : Type := {
  upload : FileUpload.Refs;
  App_numberOfColumns : nat;
  App_projectLimits : list ProjectLimits
}.

(** On mount: no file, and the watcher of ProjectConfig has run once
    ([immediate: true]) with 0 projects. *)
Definition App_mounted : App :=
  {| upload := {| FileUpload.fileName := ""; FileUpload.tableData := [];
                  FileUpload.headers := []; FileUpload.rawData := [];
                  FileUpload.numberOfColumns := 0 |};
     App_numberOfColumns := 0;
     App_projectLimits := initial_limits 0 |}.

(** A change of the refs of FileUpload with [columns-changed]: App.vue
    stores the count (lines 23-25), and the watcher of ProjectConfig runs
    when [numberOfProjects] has changed. *)
Definition columns_changed (refs : FileUpload.Refs) (app : App) : App :=
  let count := FileUpload.numberOfColumns refs in
  let before := numberOfProjects (App_numberOfColumns app) in
  let after := numberOfProjects count in
  {| upload := refs;
     App_numberOfColumns := count;
     App_projectLimits :=
       if before =? after then App_projectLimits app else initial_limits after |}.

Definition file_loaded (name : string) (arrayData : list (option (list cell)))
    (app : App) : App :=
  columns_changed (FileUpload.loaded name arrayData) app.

Definition file_failed (app : App) : App :=
  columns_changed FileUpload.load_failed app.

(** App.vue, lines 37-39 and 54-60: the props of LPSolver. *)
Definition LPSolver_props (app : App) : Props :=
  {| tableData := FileUpload.tableData (upload app);
     rawData := FileUpload.rawData (upload app);
     headers := FileUpload.headers (upload app);
     projectLimits := App_projectLimits app |}.

(** *** ProjectConfig.vue: the handlers (lines 56-86) *)

Section Handlers.

(** [parseInt] on the text of the input, and the runtime's [a - 1] and
    [a + 1]. *)
Variable parseInt : string -> number.
Variable minus_one plus_one : number -> number.

(** [projectLimits.value[projectIndex]?.min || 0] and the same for [max] *)
Definition current_bound (bound : ProjectLimits -> number)
    (limits : list ProjectLimits) (projectIndex : nat) : number :=
  match limits !! projectIndex with
  | Some l => num_or (bound l) zero
  | None => zero
  end.

Definition decrementMin (limits : list ProjectLimits) (projectIndex : nat) :=
  updateMin limits projectIndex (minus_one (current_bound min limits projectIndex)).

Definition incrementMin (limits : list ProjectLimits) (projectIndex : nat) :=
  updateMin limits projectIndex (plus_one (current_bound min limits projectIndex)).

Definition decrementMax (limits : list ProjectLimits) (projectIndex : nat) :=
  updateMax limits projectIndex (minus_one (current_bound max limits projectIndex)).

Definition incrementMax (limits : list ProjectLimits) (projectIndex : nat) :=
  updateMax limits projectIndex (plus_one (current_bound max limits projectIndex)).

(** Lines 76-80: [parseInt(target.value) || 0] *)
Definition handleMinInput (limits : list ProjectLimits) (text : string)
    (projectIndex : nat) :=
  updateMin limits projectIndex (num_or (parseInt text) zero).

(** Lines 82-86. *)
Definition handleMaxInput (limits : list ProjectLimits) (text : string)
    (projectIndex : nat) :=
  updateMax limits projectIndex (num_or (parseInt text) zero).

End Handlers.

(** *** Descriptions for the rest of the application *)

(** The character [c] does not occur in [s]. *)
Fixpoint lacks (c : ascii) (s : string) : Prop :=
  match s with
  | String x s' => x <> c /\ lacks c s'
  | "" => True
  end.

(** A raw result that gives every variable of the model the value 1 or 0,
    under the names of the document. *)
Definition result_of_choice (chosen : nat -> nat -> bool) (numStudents numProjects : nat)
  : RawResult :=
  {| Status := Some "Optimal";
     ObjectiveValue := None;
     Columns :=
       Some (list_to_map
               (map (fun p => (varName (fst p) (snd p),
                               column_with (if chosen (fst p) (snd p) then Fin 1 else Fin 0)))
                  (list_prod (seq 0 numStudents) (seq 0 numProjects)))) |}.

Fixpoint only_white_space (s : string) : bool :=
  match s with
  | String c s' => is_white_space c && only_white_space s'
  | "" => true
  end.

(** The limits and the sheet agree: one pair of limits per project. *)
Definition wired (app : App) : Prop :=
  length (App_projectLimits app) = numberOfProjects (App_numberOfColumns app)
  /\ App_numberOfColumns app = FileUpload.numberOfColumns (upload app)
  /\ length (FileUpload.headers (upload app)) = FileUpload.numberOfColumns (upload app).

(** * Properties *)

(** ** The reference runtime on examples *)

Example parse_examples :
  List.map RefRuntime.parse_number ["12"; " 3.50"; "-0.25abc"; "1e2"; ".5"; "abc"; ""; "Infinity"; "7."; "2e"]
  = [Fin 12; Fin (7 # 2); Fin (-1 # 4); Fin 100; Fin (1 # 2); NaN; NaN; PosInfinity; Fin 7; Fin 2].
Proof. vm_compute. reflexivity. Qed.

Example print_examples :
  List.map RefRuntime.print_number [Fin 5; Fin (7 # 2); Fin (-1 # 4); Fin 0; PosInfinity; NaN]
  = ["5"; "3.5"; "-0.25"; "0"; "Infinity"; "NaN"].
Proof. vm_compute. reflexivity. Qed.


(** ** The pipeline on the sample *)

Section Sample.

Import RefRuntime.

Example extract_sample :
  extract (rawData sample_props) (headers sample_props)
  = (["Ana"; "Bo"], [[Fin 5; Fin 0]; [Fin 0; Fin 3]]).
Proof. vm_compute. reflexivity. Qed.

Example objective_sample :
  objectiveTerms [[Fin 5; Fin 0]; [Fin 0; Fin 3]] 2 2 = ["5 x_0_0"; "3 x_1_1"]
  /\ objectiveTerms [[Fin 0; Fin 0]; [Fin 0; Fin 0]] 2 2 = [].
Proof. vm_compute. split; reflexivity. Qed.

Example student_line_sample :
  student_line 2 1 = " student_1: x_1_0 + x_1_1 = 1" +:+ nl.
Proof. vm_compute. reflexivity. Qed.

Example solve_sample :
  let st := solve sample_props (fun _ => Solved sample_result) initial_state in
  solution st
  = [ {| studentName := "Ana"; projectIndex := 1; weight := Fin 0 |};
      {| studentName := "Bo"; projectIndex := 0; weight := Fin 0 |} ]
  /\ App_solution st = solution st
  /\ solveStatus st = "Optimal" /\ errorMessage st = "" /\ isSolving st = false
  /\ length (solver_inputs st) = 1.
Proof. vm_compute. repeat split; reflexivity. Qed.

Example trim_examples :
  map trim ["  a b  "; ""; "   "; "x"] = ["a b"; ""; ""; "x"].
Proof. vm_compute. reflexivity. Qed.

End Sample.

(** ** Strings *)

Section StringFacts.

Lemma app_cons_s (x : ascii) (a b : string) : String x a +:+ b = String x (a +:+ b).
Proof. reflexivity. Qed.

Lemma app_nil_l_s (s : string) : "" +:+ s = s.
Proof. reflexivity. Qed.

Lemma app_nil_r_s (s : string) : s +:+ "" = s.
Proof.
  induction s as [|c s IH]; [reflexivity|].
  rewrite app_cons_s, IH. reflexivity.
Qed.

Lemma app_assoc_s (a b c : string) : (a +:+ b) +:+ c = a +:+ (b +:+ c).
Proof.
  induction a as [|x a IH]; [reflexivity|].
  rewrite !app_cons_s, IH. reflexivity.
Qed.

Lemma concat_all_cons (x : string) (l : list string) :
  concat_all (x :: l) = x +:+ concat_all l.
Proof. reflexivity. Qed.

Lemma concat_all_app (l1 l2 : list string) :
  concat_all (l1 ++ l2) = concat_all l1 +:+ concat_all l2.
Proof.
  induction l1 as [|x l1 IH]; [reflexivity|].
  rewrite <- app_comm_cons, !concat_all_cons, IH.
  symmetry. apply app_assoc_s.
Qed.

Lemma toLowerCase_app (a b : string) :
  toLowerCase (a +:+ b) = toLowerCase a +:+ toLowerCase b.
Proof.
  induction a as [|x a IH]; [reflexivity|].
  rewrite app_cons_s. cbn [toLowerCase]. rewrite IH, app_cons_s. reflexivity.
Qed.

(** A split of the lower-cased string comes from a split of the string. *)
Lemma toLowerCase_app_inv (s a b : string) :
  toLowerCase s = a +:+ b ->
  exists s1 s2, s = s1 +:+ s2 /\ toLowerCase s1 = a /\ toLowerCase s2 = b.
Proof.
  revert s. induction a as [|x a IH]; intros s Hs.
  - exists "", s. auto.
  - destruct s as [|c s]; [discriminate|].
    rewrite app_cons_s in Hs. cbn [toLowerCase] in Hs. injection Hs as Hc Hs.
    destruct (IH s Hs) as (s1 & s2 & -> & H1 & H2).
    exists (String c s1), s2. cbn [toLowerCase]. rewrite H1, Hc. auto.
Qed.

Lemma prefix_spec (t s : string) :
  String.prefix t s = true <-> exists u, s = t +:+ u.
Proof.
  revert s. induction t as [|x t IH]; intros s.
  - split; [intros _; exists s; reflexivity | intros _; destruct s; reflexivity].
  - destruct s as [|c s]; cbn [String.prefix].
    + split; [discriminate | intros [u Hu]; discriminate].
    + destruct (ascii_dec x c) as [->|Hne].
      * rewrite IH. split; intros [u Hu]; exists u.
        -- rewrite Hu. reflexivity.
        -- rewrite app_cons_s in Hu. injection Hu as Hu. exact Hu.
      * split; [discriminate|]. intros [u Hu].
        rewrite app_cons_s in Hu. injection Hu as Hc _. congruence.
Qed.

(** [includes] finds exactly the occurrences of [t] as a substring. *)
Lemma includes_spec (s t : string) :
  includes s t = true <-> exists pre post, s = pre +:+ t +:+ post.
Proof.
  induction s as [|c s IH].
  - cbn [includes]. rewrite orb_false_r, prefix_spec. split.
    + intros [u Hu]. exists "", u. exact Hu.
    + intros (pre & post & H). destruct pre; [exists post; exact H|discriminate].
  - cbn [includes]. rewrite orb_true_iff, prefix_spec, IH. split.
    + intros [[u Hu]|(pre & post & Hs)].
      * exists "", u. exact Hu.
      * exists (String c pre), post. rewrite app_cons_s. f_equal. exact Hs.
    + intros (pre & post & H). destruct pre as [|x pre].
      * left. exists post. exact H.
      * right. rewrite app_cons_s in H. injection H as _ H. exists pre, post. exact H.
Qed.

End StringFacts.

(** ** Loops *)

Section LoopFacts.

Context {A : Type}.

(** A loop whose body only appends to a list. *)
Lemma for_range_pushes (lo hi : nat) (body : nat -> list A -> list A)
    (g : nat -> list A) :
  (forall i acc, body i acc = acc ++ g i) ->
  forall acc, for_range lo hi body acc = acc ++ flat_map g (seq lo (hi - lo)).
Proof.
  intros Hbody. unfold for_range. generalize (hi - lo) as n. intros n. revert lo.
  induction n as [|n IH]; intros lo acc; cbn.
  - symmetry. apply app_nil_r.
  - rewrite Hbody, IH. symmetry. apply app_assoc.
Qed.

(** A loop whose body only appends to a string. *)
Lemma for_range_appends (lo hi : nat) (body : nat -> string -> string)
    (g : nat -> string) :
  (forall i s, body i s = s +:+ g i) ->
  forall s, for_range lo hi body s = s +:+ concat_all (map g (seq lo (hi - lo))).
Proof.
  intros Hbody. unfold for_range. generalize (hi - lo) as n. intros n. revert lo.
  induction n as [|n IH]; intros lo s; cbn.
  - symmetry. apply app_nil_r_s.
  - rewrite Hbody, IH. fold (concat_all (map g (seq (S lo) n))). apply app_assoc_s.
Qed.

(** A loop that reads [l[i]] for each index is a fold over [l]. *)
Lemma for_range_lookup {S : Type} (l : list A) (F : option A -> S -> S) (s : S) :
  for_range 0 (length l) (fun i acc => F (l !! i) acc) s
  = fold_left (fun acc x => F (Some x) acc) l s.
Proof.
  unfold for_range. rewrite Nat.sub_0_r.
  enough (forall pre s,
    fold_left (fun acc i => F ((pre ++ l) !! i) acc) (seq (length pre) (length l)) s
    = fold_left (fun acc x => F (Some x) acc) l s) as H by exact (H [] s).
  clear s. induction l as [|x l IH]; intros pre s; [reflexivity|].
  cbn [length seq fold_left].
  rewrite list_lookup_middle by reflexivity.
  specialize (IH (pre ++ [x])). rewrite length_app, Nat.add_1_r in IH.
  rewrite <- (IH (F (Some x) s)).
  rewrite <- app_assoc. reflexivity.
Qed.

End LoopFacts.

(** ** The status gate of the decoder *)

Lemma isOptimalOrFeasible_spec (status : string) :
  isOptimalOrFeasible status = true
  <-> status = "Optimal" \/ contains_ignoring_case status "feasible".
Proof.
  unfold isOptimalOrFeasible, contains_ignoring_case.
  rewrite orb_true_iff, String.eqb_eq, includes_spec.
  split; (intros [Hopt|Hsub]; [left; exact Hopt | right]).
  - destruct Hsub as (pre & post & Hlow).
    apply toLowerCase_app_inv in Hlow as (s1 & s23 & -> & H1 & H23).
    apply toLowerCase_app_inv in H23 as (s2 & s3 & -> & H2 & H3).
    exists s1, s2, s3. split; [reflexivity | exact H2].
  - destruct Hsub as (pre & mid & post & -> & Hmid).
    exists (toLowerCase pre), (toLowerCase post).
    rewrite !toLowerCase_app, Hmid. reflexivity.
Qed.

Lemma decode_branches (result : RawResult) (students : list string)
    (weights : list (list number)) (numStudents numProjects : nat) (st : State) :
  decode result students weights numStudents numProjects st
  = (inr tt,
     if isOptimalOrFeasible (string_or (Status result) "")
     then accepted_state result
            (extract_assignments result students weights numStudents numProjects) st
     else rejected_state result st).
Proof.
  unfold decode, accepted_state, rejected_state, bind, modify.
  destruct (isOptimalOrFeasible (string_or (Status result) "")); reflexivity.
Qed.

(** C1. The decoder accepts a raw result, and goes on to extract the
    assignments, exactly when its status is "Optimal" or contains "feasible"
    up to the case of letters.  For every other status it extracts nothing:
    it reports the status as an error message and emits the empty list,
    leaving the [solution] ref as [solve] reset it. *)
Theorem C1_status_gate (result : RawResult) (students : list string)
    (weights : list (list number)) (numStudents numProjects : nat) (st : State) :
  let status := string_or (Status result) "" in
  let accepted := isOptimalOrFeasible status in
  let st' := snd (decode result students weights numStudents numProjects st) in
  (accepted = true <-> status = "Optimal" \/ contains_ignoring_case status "feasible")
  /\ fst (decode result students weights numStudents numProjects st) = inr tt
  /\ st' = (if accepted
            then accepted_state result
                   (extract_assignments result students weights numStudents numProjects) st
            else rejected_state result st)
  /\ solution (rejected_state result st) = solution st
  /\ App_solution (rejected_state result st) = []
  /\ emitted (rejected_state result st) = emitted st ++ [[]]
  /\ objectiveValue (rejected_state result st) = objectiveValue st.
Proof.
  cbv zeta. rewrite decode_branches. cbn [fst snd].
  split; [apply isOptimalOrFeasible_spec|].
  repeat split; reflexivity.
Qed.

Example status_examples :
  map isOptimalOrFeasible
      ["Optimal"; "Feasible"; "FEASIBLE point"; "Infeasible";
       "Primal infeasible or unbounded"; "Unbounded"; "optimal"; "Time limit reached"; ""]
  = [true; true; true; true; true; false; false; false; false].
Proof. vm_compute. reflexivity. Qed.

(** C2. A model that no assignment satisfies (one student, one project with
    [min = 2]) for which the solver answers with status "Infeasible": the
    status contains "feasible", so the decoder takes the accepting branch.
    No error message is set, the status and an objective value of 0 are
    published as for a solved model, and the list of assignments is empty
    only because the columns carry no [Primal]. *)
Theorem C2_infeasible_status_is_accepted :
  let P := {| tableData := [[]];
              rawData := [Some [CStr "Ana"; CNum (Fin 1)]];
              headers := ["Column 1"; "Column 2"];
              projectLimits := [ {| min := Fin 2; max := Fin 10 |} ] |} in
  let st := solve (RT := RefRuntime.runtime) P (fun _ => Solved infeasible_result)
              initial_state in
  canSolve P = true
  /\ isOptimalOrFeasible "Infeasible" = true
  /\ errorMessage st = ""
  /\ solveStatus st = "Infeasible"
  /\ objectiveValue st = Some (Fin 0)
  /\ solution st = []
  /\ emitted st = [[]].
Proof. vm_compute. repeat split; reflexivity. Qed.

(** ** Extraction *)

Lemma flat_map_singleton {A B : Type} (f : A -> B) (l : list A) :
  flat_map (fun x => [f x]) l = map f l.
Proof. induction l as [|x l IH]; [reflexivity | cbn; f_equal; exact IH]. Qed.

Section ExtractionFacts.

Context `{RT : JsRuntime}.

Lemma row_weights_eq (headers : list string) (row : list cell) :
  row_weights headers row
  = map (fun j => weight_of_cell (row_get row j)) (seq 1 (length headers - 1)).
Proof.
  unfold row_weights.
  rewrite (for_range_pushes 1 (length headers) _
             (fun j => [weight_of_cell (row_get row j)])) by reflexivity.
  apply flat_map_singleton.
Qed.

Lemma row_weights_length (headers : list string) (row : list cell) :
  length (row_weights headers row) = length headers - 1.
Proof. rewrite row_weights_eq, length_map, length_seq. reflexivity. Qed.

Lemma extract_fold (rawData : list (option (list cell))) (headers : list string) :
  extract rawData headers
  = fold_left (fun acc r => extract_step headers (Some r) acc) rawData ([], []).
Proof.
  unfold extract.
  rewrite <- (for_range_lookup rawData (extract_step headers)). reflexivity.
Qed.

Lemma extract_fold_kept (headers : list string) (rawData : list (option (list cell)))
    (students : list string) (weights : list (list number)) :
  fold_left (fun acc r => extract_step headers (Some r) acc) rawData (students, weights)
  = (students ++ map name_of_row (kept_rows rawData),
     weights ++ map (row_weights headers) (kept_rows rawData)).
Proof.
  revert students weights.
  induction rawData as [|r rawData IH]; intros students weights.
  - cbn. rewrite !app_nil_r. reflexivity.
  - cbn [fold_left]. unfold kept_rows. cbn [flat_map]. fold (kept_rows rawData).
    destruct r as [row|]; cbn [extract_step row_is_skipped].
    + destruct (length row =? 0); cbn [orb]; [apply IH|].
      destruct (String.eqb (name_of_row row) ""); [apply IH|].
      rewrite IH. unfold push. cbn [app map]. rewrite <- !app_assoc. reflexivity.
    + apply IH.
Qed.

Lemma extract_eq (rawData : list (option (list cell))) (headers : list string) :
  extract rawData headers
  = (map name_of_row (kept_rows rawData), map (row_weights headers) (kept_rows rawData)).
Proof. rewrite extract_fold. apply extract_fold_kept. Qed.


Lemma in_kept_rows (rawData : list (option (list cell))) (row : list cell) :
  In row (kept_rows rawData)
  <-> In (Some row) rawData /\ row_is_skipped (Some row) = false.
Proof.
  unfold kept_rows. rewrite in_flat_map. split.
  - intros (r & Hr & Hin). destruct r as [row'|]; [|destruct Hin].
    destruct (row_is_skipped (Some row')) eqn:Hs; [destruct Hin|].
    destruct Hin as [->|[]]. auto.
  - intros [Hin Hs]. exists (Some row). split; [exact Hin|].
    rewrite Hs. left. reflexivity.
Qed.


(** Every name kept is non-empty, and the two arrays stay parallel. *)
Lemma extract_well_formed (rawData : list (option (list cell))) (headers : list string) :
  Forall (fun name => name <> "") (fst (extract rawData headers))
  /\ length (snd (extract rawData headers)) = length (fst (extract rawData headers)).
Proof.
  rewrite extract_eq. cbn [fst snd]. split.
  - apply Forall_map, Forall_forall. intros row Hrow.
    apply list_elem_of_In, in_kept_rows in Hrow as [_ Hs].
    cbn in Hs. apply orb_false_iff in Hs as [_ Hs].
    intros Heq. rewrite Heq in Hs. discriminate.
  - rewrite !length_map. reflexivity.
Qed.

End ExtractionFacts.

Section ExtractionClaims.

Context `{RT : JsRuntime}.





Lemma canSolve_lengths (P : Props) :
  canSolve P = true ->
  length (headers P) = S (length (projectLimits P)) /\ 0 < length (projectLimits P).
Proof.
  unfold canSolve. rewrite !andb_true_iff, !Nat.ltb_lt, Z.eqb_eq. lia.
Qed.

Lemma require_dimensions_pass (weights : list (list number)) (numProjects : nat) (st : State) :
  Forall (fun w => length w = numProjects) weights ->
  require_dimensions weights numProjects st = (inr tt, st).
Proof.
  intros Hall. unfold require_dimensions.
  assert (existsb (fun w => negb (length w =? numProjects)) weights = false) as ->;
    [|reflexivity].
  induction Hall as [|w ws Hw _ IH]; [reflexivity|].
  cbn [existsb]. rewrite IH, Hw, Nat.eqb_refl. reflexivity.
Qed.

Lemma extract_row_lengths (P : Props) :
  canSolve P = true ->
  Forall (fun w => length w = length (projectLimits P))
    (snd (extract (rawData P) (headers P))).
Proof.
  intros [Hlen _]%canSolve_lengths.
  rewrite extract_eq. cbn [snd]. apply Forall_map, Forall_forall. intros row _.
  cbn. rewrite row_weights_length, Hlen. lia.
Qed.

(** C10. Under the guard of [solve], every weight row that extraction
    produces has length [headers.length - 1], which is the number of
    projects [projectLimits.length]; the check of lines 84-86 therefore
    passes, and its "Inconsistent number of project weights" is never
    thrown. *)
Theorem C10_weight_rows_match_projects (P : Props) (st : State) :
  canSolve P = true ->
  let weights := snd (extract (rawData P) (headers P)) in
  Forall (fun w => Z.of_nat (length w) = (Z.of_nat (length (headers P)) - 1)%Z) weights
  /\ Forall (fun w => length w = length (projectLimits P)) weights
  /\ existsb (fun w => negb (length w =? length (projectLimits P))) weights = false
  /\ require_dimensions weights (length (projectLimits P)) st = (inr tt, st).
Proof.
  intros Hcan weights.
  pose proof (extract_row_lengths P Hcan) as Hrows. fold weights in Hrows.
  destruct (canSolve_lengths P Hcan) as [Hlen _].
  split.
  { eapply Forall_impl; [exact Hrows|]. cbn. intros w Hw. lia. }
  split; [exact Hrows|].
  split.
  { clear -Hrows. induction Hrows as [|w ws Hw _ IH]; [reflexivity|].
    cbn [existsb]. rewrite IH, Hw, Nat.eqb_refl. reflexivity. }
  apply require_dimensions_pass. exact Hrows.
Qed.

End ExtractionClaims.


Lemma C10_witness :
  canSolve sample_props = true
  /\ require_dimensions
       (snd (extract (RT := RefRuntime.runtime) (rawData sample_props) (headers sample_props)))
       (length (projectLimits sample_props)) initial_state
     = (inr tt, initial_state).
Proof.
  split; [reflexivity|].
  apply (C10_weight_rows_match_projects (RT := RefRuntime.runtime) sample_props initial_state).
  reflexivity.
Defined.

(** ** The paths through [solve] *)

Section SolveFacts.

Context `{RT : JsRuntime}.

Lemma solve_guard_closed (P : Props) (highs : Solver) (st : State) :
  canSolve P = false ->
  solve P highs st = set_errorMessage "Cannot solve: Missing data or project limits" st.
Proof. intros H. unfold solve. rewrite H. reflexivity. Qed.

Lemma solve_guard_open (P : Props) (highs : Solver) (st : State) :
  canSolve P = true ->
  solve P highs st
  = set_isSolving false
      match try_block P highs (reset st) with
      | (inl error, st') => set_errorMessage (message_of error) st'
      | (inr _, st') => st'
      end.
Proof. intros H. unfold solve. rewrite H. reflexivity. Qed.

(** The paths through the [try] block after extraction. *)
Lemma after_extraction_cases (students : list string) (weights : list (list number))
    (limits : list ProjectLimits) (highs : Solver) (st : State) :
  after_extraction students weights limits highs st
  = if length students =? 0
    then (inl (ThrownError "No valid students found in the data"), st)
    else if existsb (fun w => negb (length w =? length limits)) weights
    then (inl (ThrownError "Inconsistent number of project weights"), st)
    else
      let lpProblem := formulate weights limits (length students) (length limits) in
      match highs lpProblem with
      | LoadFailed e => (inl e, st)
      | SolveFailed e => (inl e, record_solver_input lpProblem st)
      | Solved r =>
          decode r students weights (length students) (length limits)
            (record_solver_input lpProblem st)
      end.
Proof.
  unfold after_extraction, require_students, require_dimensions, when, bind, throw, ret.
  destruct (length students =? 0); [reflexivity|].
  destruct (existsb _ weights); [reflexivity|].
  cbv zeta. unfold call_highs, bind, modify, throw, ret.
  destruct (highs _); reflexivity.
Qed.

(** Whatever is thrown inside the [try] block, nothing was emitted and no
    ref was written on the way. *)
Lemma thrown_leaves_refs (students : list string) (weights : list (list number))
    (limits : list ProjectLimits) (highs : Solver) (st : State) (e : Thrown) :
  fst (after_extraction students weights limits highs st) = inl e ->
  let st' := snd (after_extraction students weights limits highs st) in
  solution st' = solution st /\ objectiveValue st' = objectiveValue st
  /\ solveStatus st' = solveStatus st /\ errorMessage st' = errorMessage st
  /\ isSolving st' = isSolving st
  /\ App_solution st' = App_solution st /\ emitted st' = emitted st.
Proof.
  rewrite after_extraction_cases.
  destruct (length students =? 0); [intros _; cbn; tauto|].
  destruct (existsb _ weights); [intros _; cbn; tauto|].
  cbv zeta. destruct (highs _) as [e'|e'|r]; cbn [fst snd].
  - tauto.
  - intros _. cbn. tauto.
  - rewrite decode_branches. discriminate.
Qed.

(** Every failure inside the [try] block ends in the [catch] clause: the
    component's own refs are left as the reset made them, with the message
    of the error, and nothing reaches App.vue. *)
Lemma solve_caught (P : Props) (highs : Solver) (st : State) (e : Thrown) :
  canSolve P = true ->
  fst (try_block P highs (reset st)) = inl e ->
  let st' := solve P highs st in
  errorMessage st' = message_of e /\ isSolving st' = false
  /\ solution st' = [] /\ objectiveValue st' = None /\ solveStatus st' = ""
  /\ App_solution st' = App_solution st /\ emitted st' = emitted st.
Proof.
  intros Hcan Hthrown. cbv zeta. rewrite (solve_guard_open _ _ _ Hcan).
  unfold try_block in *.
  destruct (extract (rawData P) (headers P)) as [students weights].
  pose proof (thrown_leaves_refs students weights (projectLimits P) highs (reset st) e
                Hthrown) as Hrefs.
  cbv zeta in Hrefs.
  destruct (after_extraction students weights (projectLimits P) highs (reset st))
    as [[e'|u] st'] eqn:Hrun; cbn [fst snd] in *; [|discriminate].
  injection Hthrown as ->.
  destruct Hrefs as (H1 & H2 & H3 & H4 & H5 & H6 & H7).
  cbn. rewrite H1, H2, H3, H6, H7. cbn. tauto.
Qed.

(** When the guard holds, a student is left and the solver returns, [solve]
    is [decode] on the state that the reset made. *)
Lemma solve_reaches_decode (P : Props) (highs : Solver) (st : State) (r : RawResult) :
  canSolve P = true ->
  fst (extract (rawData P) (headers P)) <> [] ->
  let students := fst (extract (rawData P) (headers P)) in
  let weights := snd (extract (rawData P) (headers P)) in
  let numProjects := length (projectLimits P) in
  let lpProblem := formulate weights (projectLimits P) (length students) numProjects in
  highs lpProblem = Solved r ->
  solve P highs st
  = set_isSolving false
      (snd (decode r students weights (length students) numProjects
              (record_solver_input lpProblem (reset st)))).
Proof.
  intros Hcan Hne students weights numProjects lpProblem Hsolved.
  rewrite (solve_guard_open _ _ _ Hcan). unfold try_block.
  pose proof (extract_row_lengths P Hcan) as Hrows.
  subst students weights lpProblem numProjects.
  destruct (extract (rawData P) (headers P)) as [students weights]. cbn [fst snd] in *.
  rewrite after_extraction_cases.
  destruct students as [|s students]; [congruence|]. cbn [length Nat.eqb].
  assert (existsb (fun w => negb (length w =? length (projectLimits P))) weights = false)
    as ->.
  { clear -Hrows. induction Hrows as [|w ws Hw _ IH]; [reflexivity|].
    cbn [existsb]. rewrite IH, Hw, Nat.eqb_refl. reflexivity. }
  cbv zeta. cbn [length] in Hsolved. rewrite Hsolved.
  rewrite decode_branches. reflexivity.
Qed.

(** With no student left, [solve] stops at the first check of the [try]
    block. *)
Lemma solve_no_students (P : Props) (highs : Solver) (st : State) :
  canSolve P = true ->
  fst (extract (rawData P) (headers P)) = [] ->
  solve P highs st
  = set_isSolving false
      (set_errorMessage "No valid students found in the data" (reset st)).
Proof.
  intros Hcan Hnil. rewrite (solve_guard_open _ _ _ Hcan). unfold try_block.
  destruct (extract (rawData P) (headers P)) as [students weights].
  cbn [fst] in Hnil. subst students. rewrite after_extraction_cases. reflexivity.
Qed.

(** A status that is not accepted, seen from [solve]: the list of
    assignments is empty in the component and in App.vue. *)
Lemma solve_rejected_status (P : Props) (highs : Solver) (st : State) (r : RawResult) :
  canSolve P = true ->
  fst (extract (rawData P) (headers P)) <> [] ->
  highs (formulate (snd (extract (rawData P) (headers P))) (projectLimits P)
           (length (fst (extract (rawData P) (headers P))))
           (length (projectLimits P))) = Solved r ->
  isOptimalOrFeasible (string_or (Status r) "") = false ->
  let st' := solve P highs st in
  solution st' = [] /\ App_solution st' = [] /\ objectiveValue st' = None
  /\ errorMessage st'
     = "Solver status: " +:+ status_text r
       +:+ ". The problem may be infeasible or unbounded.".
Proof.
  intros Hcan Hne Hsolved Hrej. cbv zeta.
  rewrite (solve_reaches_decode P highs st r Hcan Hne Hsolved).
  rewrite decode_branches, Hrej. cbn. repeat split; reflexivity.
Qed.

End SolveFacts.

(** ** The encoder *)

Lemma concat_all_flat_map {A : Type} (f : A -> list string) (l : list A) :
  concat_all (flat_map f l) = concat_all (map (fun x => concat_all (f x)) l).
Proof.
  induction l as [|x l IH]; [reflexivity|].
  cbn [flat_map map]. rewrite concat_all_app, concat_all_cons, IH. reflexivity.
Qed.

Lemma concat_all_list_prod {A B : Type} (f : A -> B -> string) (l1 : list A) (l2 : list B) :
  concat_all (map (fun x => concat_all (map (f x) l2)) l1)
  = concat_all (map (fun p => f (fst p) (snd p)) (list_prod l1 l2)).
Proof.
  induction l1 as [|x l1 IH]; [reflexivity|].
  cbn [map list_prod]. rewrite map_app, concat_all_app, concat_all_cons, IH, map_map.
  reflexivity.
Qed.

Lemma flat_map_filter_prod {A B C : Type} (keep : A * B -> bool) (f : A * B -> C)
    (l1 : list A) (l2 : list B) :
  flat_map (fun x => flat_map (fun y => if keep (x, y) then [f (x, y)] else []) l2) l1
  = map f (List.filter keep (list_prod l1 l2)).
Proof.
  induction l1 as [|x l1 IH]; [reflexivity|].
  cbn [flat_map list_prod]. rewrite List.filter_app, map_app, IH. f_equal.
  clear IH. induction l2 as [|y l2 IH]; [reflexivity|].
  cbn [flat_map map List.filter]. rewrite IH.
  destruct (keep (x, y)); reflexivity.
Qed.

Lemma collect_names (f : nat -> string) (n : nat) :
  for_range 0 n (fun k t => push t (f k)) [] = map f (seq 0 n).
Proof.
  rewrite (for_range_pushes 0 n _ (fun k => [f k])) by reflexivity.
  rewrite Nat.sub_0_r. apply flat_map_singleton.
Qed.

Section EncoderFacts.

Context `{RT : JsRuntime}.

Lemma objectiveTerms_eq (weights : list (list number)) (numStudents numProjects : nat) :
  objectiveTerms weights numStudents numProjects
  = map (objective_term weights) (nonzero_pairs weights numStudents numProjects).
Proof.
  unfold objectiveTerms, nonzero_pairs.
  rewrite (for_range_pushes 0 numStudents _
             (fun i => flat_map
                (fun j => if num_strict_neq (weight_at weights i j) zero
                          then [objective_term weights (i, j)] else [])
                (seq 0 numProjects))).
  - rewrite Nat.sub_0_r.
    apply (flat_map_filter_prod
             (fun p => let '(i, j) := p in num_strict_neq (weight_at weights i j) zero)
             (objective_term weights)).
  - intros i acc.
    rewrite (for_range_pushes 0 numProjects _
               (fun j => if num_strict_neq (weight_at weights i j) zero
                         then [objective_term weights (i, j)] else [])).
    + rewrite Nat.sub_0_r. reflexivity.
    + intros j acc'. cbv zeta.
      destruct (num_strict_neq (weight_at weights i j) zero);
        [reflexivity | symmetry; apply app_nil_r].
Qed.

Lemma student_constraints_eq (numStudents numProjects : nat) (lpProblem : string) :
  student_constraints numStudents numProjects lpProblem
  = lpProblem +:+ concat_all (map (student_line numProjects) (seq 0 numStudents)).
Proof.
  unfold student_constraints.
  rewrite (for_range_appends 0 numStudents _ (student_line numProjects)).
  - rewrite Nat.sub_0_r. reflexivity.
  - intros i s. cbv zeta. rewrite collect_names. reflexivity.
Qed.

Lemma project_constraints_eq (limits : list ProjectLimits)
    (numStudents numProjects : nat) (lpProblem : string) :
  project_constraints limits numStudents numProjects lpProblem
  = lpProblem
    +:+ concat_all (flat_map (project_lines limits numStudents) (seq 0 numProjects)).
Proof.
  unfold project_constraints.
  rewrite (for_range_appends 0 numProjects _
             (fun j => concat_all (project_lines limits numStudents j))).
  - rewrite Nat.sub_0_r, concat_all_flat_map. reflexivity.
  - intros j s. cbv zeta. rewrite collect_names. unfold project_lines.
    destruct (limits !! j) as [l|]; [|symmetry; apply app_nil_r_s].
    unfold project_min_line, project_max_line.
    destruct (num_gt (min l) zero), (num_lt (max l) PosInfinity);
      cbn [app]; rewrite ?concat_all_cons, ?app_assoc_s;
      unfold concat_all; cbn [foldr]; rewrite ?app_nil_r_s; reflexivity.
Qed.

Lemma per_variable_eq (line : nat -> nat -> string)
    (numStudents numProjects : nat) (lpProblem : string) :
  per_variable line numStudents numProjects lpProblem
  = lpProblem +:+ concat_all (variable_lines line numStudents numProjects).
Proof.
  unfold per_variable, variable_lines.
  rewrite (for_range_appends 0 numStudents _
             (fun i => concat_all (map (line i) (seq 0 numProjects)))).
  - rewrite Nat.sub_0_r, concat_all_list_prod. reflexivity.
  - intros i s.
    rewrite (for_range_appends 0 numProjects _ (line i)) by reflexivity.
    rewrite Nat.sub_0_r. reflexivity.
Qed.

(** The document, section by section. *)
Lemma formulate_sections (weights : list (list number)) (limits : list ProjectLimits)
    (numStudents numProjects : nat) :
  formulate weights limits numStudents numProjects
  = "Minimize" +:+ nl
    +:+ objective_line weights numStudents numProjects
    +:+ "Subject To" +:+ nl
    +:+ concat_all (constraint_lines limits numStudents numProjects)
    +:+ "Bounds" +:+ nl
    +:+ concat_all (variable_lines bound_line numStudents numProjects)
    +:+ "Binary" +:+ nl
    +:+ concat_all (variable_lines binary_line numStudents numProjects)
    +:+ "End".
Proof.
  unfold formulate. cbv zeta.
  rewrite !per_variable_eq, project_constraints_eq, student_constraints_eq,
    objectiveTerms_eq.
  unfold constraint_lines. rewrite concat_all_app.
  unfold objective_line, bound_line, binary_line.
  assert ((if 0 <? length (map (objective_term weights)
                         (nonzero_pairs weights numStudents numProjects))
           then join " + " (map (objective_term weights)
                              (nonzero_pairs weights numStudents numProjects))
           else "0")
          = match nonzero_pairs weights numStudents numProjects with
            | [] => "0"
            | p :: l => join " + " (map (objective_term weights) (p :: l))
            end) as ->.
  { destruct (nonzero_pairs weights numStudents numProjects); reflexivity. }
  rewrite !app_assoc_s. reflexivity.
Qed.

End EncoderFacts.

Lemma StronglySorted_filter_bool {A : Type} (R : A -> A -> Prop) (f : A -> bool)
    (l : list A) :
  StronglySorted R l -> StronglySorted R (List.filter f l).
Proof.
  induction 1 as [|x l Hl IH Hx]; [constructor|].
  cbn [List.filter]. destruct (f x); [|exact IH].
  constructor; [exact IH|].
  apply List.Forall_forall. intros y [Hy _]%filter_In.
  rewrite List.Forall_forall in Hx. apply Hx, Hy.
Qed.

Lemma seq_sorted (b m : nat) : StronglySorted lt (seq b m).
Proof.
  revert b. induction m as [|m IH]; intros b; [constructor|].
  cbn [seq]. constructor; [apply IH|].
  apply List.Forall_forall. intros y [Hy _]%in_seq. lia.
Qed.

Lemma list_prod_seq_sorted (a n b m : nat) :
  StronglySorted pair_lt (list_prod (seq a n) (seq b m)).
Proof.
  revert a. induction n as [|n IH]; intros a; [constructor|].
  cbn [seq list_prod]. apply StronglySorted_app_2.
  - intros [i1 j1] [i2 j2] H1%list_elem_of_In H2%list_elem_of_In.
    apply in_map_iff in H1 as (y & [= <- <-] & _).
    apply in_prod_iff in H2 as [H2%in_seq _]. left. cbn. lia.
  - apply (StronglySorted_fmap (pair a) lt pair_lt); [|apply seq_sorted].
    intros x y Hxy. right. cbn. lia.
  - apply IH.
Qed.

Lemma pair_lt_sorted_NoDup (l : list (nat * nat)) :
  StronglySorted pair_lt l -> List.NoDup l.
Proof.
  induction 1 as [|x l _ IH Hx]; constructor; [|exact IH].
  intros Hin. rewrite List.Forall_forall in Hx.
  destruct (Hx x Hin) as [H|[_ H]]; lia.
Qed.

(** ** The capacity editor keeps [0 <= min <= max]

    The handlers call [updateMin] and [updateMax] with [parseInt(..) || 0]
    or with the current bound plus or minus one, never with NaN. *)

Lemma num_le_refl (a : number) : a <> NaN -> num_le a a = true.
Proof.
  destruct a as [| | |q]; intros H; try reflexivity; [congruence|].
  apply Qle_bool_iff, Qle_refl.
Qed.

Lemma num_not_lt_le (a b : number) :
  a <> NaN -> b <> NaN -> num_lt a b = false -> num_le b a = true.
Proof.
  destruct a as [| | |p], b as [| | |q]; cbn; intros Ha Hb H;
    try congruence; try reflexivity.
  apply negb_false_iff in H. exact H.
Qed.

Lemma num_lt_le (a b : number) : num_lt a b = true -> num_le a b = true.
Proof.
  destruct a as [| | |p], b as [| | |q]; cbn; intros H; try congruence.
  apply negb_true_iff in H. apply Qle_bool_iff.
  destruct (Qlt_le_dec p q) as [Hlt|Hle]; [apply Qlt_le_weak, Hlt|].
  apply Qle_bool_iff in Hle. congruence.
Qed.

Lemma Math_max_zero (value : number) :
  value <> NaN ->
  Math_max zero value <> NaN /\ num_le zero (Math_max zero value) = true.
Proof.
  intros Hv. unfold Math_max, zero.
  destruct value as [| | |q]; [congruence| | |]; cbn [num_lt].
  - split; [discriminate | reflexivity].
  - split; [discriminate | reflexivity].
  - destruct (negb (Qle_bool q 0)) eqn:H; split; try discriminate.
    + apply (num_lt_le (Fin 0) (Fin q)). exact H.
    + reflexivity.
Qed.

Lemma invariant_not_NaN (l : ProjectLimits) :
  project_invariant l = true -> min l <> NaN /\ max l <> NaN.
Proof.
  unfold project_invariant. destruct l as [[| | |p] [| | |q]]; cbn;
    intros H; split; try discriminate; try congruence;
    destruct (Qle_bool 0 p); discriminate.
Qed.

Lemma updateMin_invariant (limits : list ProjectLimits) (projectIndex : nat)
    (value : number) :
  value <> NaN ->
  Forall (fun l => project_invariant l = true) limits ->
  Forall (fun l => project_invariant l = true) (updateMin limits projectIndex value).
Proof.
  intros Hv Hall. unfold updateMin.
  destruct (limits !! projectIndex) as [l|] eqn:Hl; [|exact Hall].
  apply Forall_insert; [exact Hall|].
  assert (project_invariant l = true) as Hinv.
  { rewrite Forall_forall in Hall. apply Hall, list_elem_of_lookup. eauto. }
  destruct (invariant_not_NaN l Hinv) as [_ Hmax].
  destruct (Math_max_zero value Hv) as [Hm Hpos].
  cbv zeta. cbn [min max]. unfold num_gt.
  destruct (num_lt (max l) (Math_max zero value)) eqn:Hcmp;
    unfold project_invariant; cbn [min max]; rewrite Hpos; cbn [andb].
  - apply num_le_refl, Hm.
  - apply num_not_lt_le; assumption.
Qed.

Lemma updateMax_invariant (limits : list ProjectLimits) (projectIndex : nat)
    (value : number) :
  value <> NaN ->
  Forall (fun l => project_invariant l = true) limits ->
  Forall (fun l => project_invariant l = true) (updateMax limits projectIndex value).
Proof.
  intros Hv Hall. unfold updateMax.
  destruct (limits !! projectIndex) as [l|] eqn:Hl; [|exact Hall].
  apply Forall_insert; [exact Hall|].
  assert (project_invariant l = true) as Hinv.
  { rewrite Forall_forall in Hall. apply Hall, list_elem_of_lookup. eauto. }
  destruct (invariant_not_NaN l Hinv) as [Hmin _].
  destruct (Math_max_zero value Hv) as [Hm Hpos].
  apply andb_true_iff in Hinv as [Hmin_pos _].
  cbv zeta. cbn [min max].
  destruct (num_lt (Math_max zero value) (min l)) eqn:Hcmp;
    unfold project_invariant; cbn [min max].
  - rewrite Hpos. cbn [andb]. apply num_le_refl, Hm.
  - rewrite Hmin_pos. cbn [andb]. apply num_not_lt_le; assumption.
Qed.

Lemma default_limits_invariant (n : nat) :
  Forall (fun l => project_invariant l = true) (replicate n default_limits).
Proof. apply Forall_replicate. reflexivity. Qed.

Section EncoderClaims.

Context `{RT : JsRuntime}.

Lemma in_nonzero_pairs (weights : list (list number)) (numStudents numProjects i j : nat) :
  In (i, j) (nonzero_pairs weights numStudents numProjects)
  <-> i < numStudents /\ j < numProjects
      /\ num_strict_neq (weight_at weights i j) zero = true.
Proof.
  unfold nonzero_pairs. rewrite filter_In, in_prod_iff, !in_seq. cbv beta iota. intuition lia.
Qed.

(** C5. The document opens with the sense [Minimize] and the objective
    line.  The terms of the objective are, in the order students outer and
    projects inner, one term [weight x_i_j] for each pair [(i, j)] whose
    weight is not zero, and no other; when no weight is non-zero the
    objective line is [obj: 0]. *)
Theorem C5_objective (weights : list (list number)) (limits : list ProjectLimits)
    (numStudents numProjects : nat) :
  formulate weights limits numStudents numProjects
  = "Minimize" +:+ nl
    +:+ objective_line weights numStudents numProjects
    +:+ "Subject To" +:+ nl
    +:+ concat_all (constraint_lines limits numStudents numProjects)
    +:+ "Bounds" +:+ nl
    +:+ concat_all (variable_lines bound_line numStudents numProjects)
    +:+ "Binary" +:+ nl
    +:+ concat_all (variable_lines binary_line numStudents numProjects)
    +:+ "End"
  /\ objectiveTerms weights numStudents numProjects
     = map (fun p => number_to_string (weight_at weights (fst p) (snd p))
                     +:+ " " +:+ varName (fst p) (snd p))
         (nonzero_pairs weights numStudents numProjects)
  /\ objective_line weights numStudents numProjects
     = " obj: "
       +:+ (if bool_decide (objectiveTerms weights numStudents numProjects = [])
            then "0"
            else join " + " (objectiveTerms weights numStudents numProjects))
       +:+ nl
  /\ (forall i j,
        In (i, j) (nonzero_pairs weights numStudents numProjects)
        <-> i < numStudents /\ j < numProjects
            /\ num_strict_neq (weight_at weights i j) zero = true)
  /\ StronglySorted pair_lt (nonzero_pairs weights numStudents numProjects)
  /\ List.NoDup (nonzero_pairs weights numStudents numProjects)
  /\ ((forall i j, i < numStudents -> j < numProjects ->
                   num_strict_neq (weight_at weights i j) zero = false) ->
      objectiveTerms weights numStudents numProjects = []
      /\ objective_line weights numStudents numProjects = " obj: 0" +:+ nl).
Proof.
  assert (StronglySorted pair_lt (nonzero_pairs weights numStudents numProjects))
    as Hsorted.
  { apply StronglySorted_filter_bool, list_prod_seq_sorted. }
  split; [apply formulate_sections|].
  split; [apply objectiveTerms_eq|].
  split.
  { rewrite objectiveTerms_eq. unfold objective_line.
    destruct (nonzero_pairs weights numStudents numProjects); reflexivity. }
  split; [intros i j; apply in_nonzero_pairs|].
  split; [exact Hsorted|].
  split; [apply pair_lt_sorted_NoDup, Hsorted|].
  intros Hzero.
  assert (nonzero_pairs weights numStudents numProjects = []) as Hnil.
  { destruct (nonzero_pairs weights numStudents numProjects) as [|[i j] l] eqn:Hp;
      [reflexivity|].
    assert (In (i, j) (nonzero_pairs weights numStudents numProjects)) as Hin
      by (rewrite Hp; left; reflexivity).
    apply in_nonzero_pairs in Hin as (Hi & Hj & Hnz).
    rewrite (Hzero i j Hi Hj) in Hnz. discriminate. }
  rewrite objectiveTerms_eq. unfold objective_line. rewrite Hnil. split; reflexivity.
Qed.

Lemma invariant_max_finite (l : ProjectLimits) :
  project_invariant l = true -> num_lt (max l) PosInfinity = is_finite (max l).
Proof.
  unfold project_invariant. destruct l as [[| | |p] [| | |q]]; cbn; try reflexivity;
    intros H; try discriminate; destruct (Qle_bool 0 p); cbn in H; discriminate.
Qed.

Lemma min_line_not_max_line (numStudents j : nat) (l l' : ProjectLimits) :
  project_min_line numStudents j l <> project_max_line numStudents j l'.
Proof.
  unfold project_min_line, project_max_line. intros H.
  apply String.app_inj in H. apply String.app_inj in H. discriminate H.
Qed.

(** C6. The section [Subject To] holds, for every student [i], the line
    [student_<i>: x_i_0 + ... = 1], and then, for every project [j] (whose
    limits satisfy [0 <= min <= max]), the line [project_<j>_min: ... >= min]
    exactly when [min > 0] and the line [project_<j>_max: ... <= max]
    exactly when [max] is finite. *)
Theorem C6_constraints (weights : list (list number)) (limits : list ProjectLimits)
    (numStudents : nat) :
  Forall (fun l => project_invariant l = true) limits ->
  let numProjects := length limits in
  formulate weights limits numStudents numProjects
  = "Minimize" +:+ nl
    +:+ objective_line weights numStudents numProjects
    +:+ "Subject To" +:+ nl
    +:+ concat_all (map (student_line numProjects) (seq 0 numStudents)
                    ++ flat_map (project_lines limits numStudents) (seq 0 numProjects))
    +:+ "Bounds" +:+ nl
    +:+ concat_all (variable_lines bound_line numStudents numProjects)
    +:+ "Binary" +:+ nl
    +:+ concat_all (variable_lines binary_line numStudents numProjects)
    +:+ "End"
  /\ (forall i, i < numStudents ->
        In (student_line numProjects i) (map (student_line numProjects) (seq 0 numStudents)))
  /\ (forall j, j < numProjects ->
        exists l, limits !! j = Some l
        /\ project_lines limits numStudents j
           = (if num_gt (min l) zero then [project_min_line numStudents j l] else [])
             ++ (if is_finite (max l) then [project_max_line numStudents j l] else [])
        /\ (In (project_min_line numStudents j l) (project_lines limits numStudents j)
            <-> num_gt (min l) zero = true)
        /\ (In (project_max_line numStudents j l) (project_lines limits numStudents j)
            <-> is_finite (max l) = true)).
Proof.
  intros Hinv numProjects.
  split; [apply formulate_sections|].
  split.
  { intros i Hi. apply in_map, in_seq. lia. }
  intros j Hj. destruct (lookup_lt_is_Some_2 limits j Hj) as [l Hl].
  exists l. split; [exact Hl|].
  assert (project_invariant l = true) as Hl_inv.
  { rewrite Forall_forall in Hinv. apply Hinv, list_elem_of_lookup. eauto. }
  unfold project_lines. rewrite Hl, (invariant_max_finite l Hl_inv).
  split; [reflexivity|].
  pose proof (min_line_not_max_line numStudents j l l) as Hne.
  destruct (num_gt (min l) zero), (is_finite (max l)); cbn; split; split;
    intros H; try reflexivity; try discriminate; intuition congruence.
Qed.

End EncoderClaims.

Lemma C6_witness :
  Forall (fun l => project_invariant l = true) (projectLimits sample_props)
  /\ exists l, projectLimits sample_props !! 1 = Some l
       /\ (In (project_max_line (RT := RefRuntime.runtime) 2 1 l)
             (project_lines (RT := RefRuntime.runtime) (projectLimits sample_props) 2 1)
           <-> is_finite (max l) = true).
Proof.
  assert (Forall (fun l => project_invariant l = true) (projectLimits sample_props)) as H.
  { repeat constructor. }
  split; [exact H|].
  destruct (C6_constraints (RT := RefRuntime.runtime)
              [[Fin 5; Fin 0]; [Fin 0; Fin 3]] (projectLimits sample_props) 2 H)
    as (_ & _ & Hproj).
  destruct (Hproj 1) as (l & Hl & _ & _ & Hmax); [cbn; lia|].
  exists l. split; [exact Hl | exact Hmax].
Defined.

(** ** The assignments read off the columns *)

Lemma flat_map_filter {A B : Type} (keep : A -> bool) (f : A -> B) (l : list A) :
  flat_map (fun x => if keep x then [f x] else []) l = map f (List.filter keep l).
Proof.
  induction l as [|x l IH]; [reflexivity|].
  cbn [flat_map List.filter]. rewrite IH. destruct (keep x); reflexivity.
Qed.

Lemma filter_flat_map_nil {A B : Type} (keep : B -> bool) (f : A -> list B) (l : list A) :
  (forall x, In x l -> List.filter keep (f x) = []) ->
  List.filter keep (flat_map f l) = [].
Proof.
  induction l as [|x l IH]; intros H; [reflexivity|].
  cbn [flat_map]. rewrite List.filter_app, (H x), IH; [reflexivity| |left; reflexivity].
  intros y Hy. apply H. right. exact Hy.
Qed.

Lemma student_assignments_eq (result : RawResult) (i : nat) (name : string)
    (studentWeights : list number) (numProjects : nat) (acc : list Assignment) :
  student_assignments result i name studentWeights numProjects acc
  = acc ++ map (fun j => {| studentName := name; projectIndex := j;
                            weight := default zero (studentWeights !! j) |})
             (crossing result i numProjects).
Proof.
  unfold student_assignments, crossing.
  rewrite (for_range_pushes 0 numProjects _
             (fun j => if primal_above_half (column_of result (varName i j))
                       then [{| studentName := name; projectIndex := j;
                                weight := default zero (studentWeights !! j) |}]
                       else [])).
  - rewrite Nat.sub_0_r, flat_map_filter. reflexivity.
  - intros j acc'. cbv zeta.
    destruct (primal_above_half _); [reflexivity | symmetry; apply app_nil_r].
Qed.

Lemma extract_assignments_eq (result : RawResult) (students : list string)
    (weights : list (list number)) (numStudents numProjects : nat) :
  extract_assignments result students weights numStudents numProjects
  = flat_map (emitted_for result students weights numProjects) (seq 0 numStudents).
Proof.
  unfold extract_assignments.
  rewrite (for_range_pushes 0 numStudents _
             (emitted_for result students weights numProjects)).
  - rewrite Nat.sub_0_r. reflexivity.
  - intros i acc. unfold emitted_for.
    destruct (students !! i) as [name|]; [|symmetry; apply app_nil_r].
    destruct (weights !! i) as [ws|]; [|symmetry; apply app_nil_r].
    destruct (String.eqb name ""); [symmetry; apply app_nil_r|].
    rewrite !student_assignments_eq. reflexivity.
Qed.

Lemma emitted_for_eq (result : RawResult) (students : list string)
    (weights : list (list number)) (numProjects i : nat) (name : string)
    (ws : list number) :
  students !! i = Some name -> name <> "" -> weights !! i = Some ws ->
  emitted_for result students weights numProjects i
  = map (fun j => {| studentName := name; projectIndex := j;
                     weight := weight_at weights i j |})
      (crossing result i numProjects).
Proof.
  intros Hname Hne Hws. unfold emitted_for, weight_at. rewrite Hname, Hws.
  apply String.eqb_neq in Hne. rewrite Hne, student_assignments_eq. reflexivity.
Qed.

Lemma in_crossing (result : RawResult) (i numProjects j : nat) :
  In j (crossing result i numProjects)
  <-> j < numProjects /\ primal_above_half (column_of result (varName i j)) = true.
Proof. unfold crossing. rewrite filter_In, in_seq. intuition lia. Qed.

Lemma primal_above_half_spec (column : option Column) :
  primal_above_half column = true
  <-> exists c p, column = Some c /\ Primal c = Value p /\ num_gt p half = true.
Proof.
  unfold primal_above_half. split.
  - destruct column as [c|]; [|discriminate].
    destruct (Primal c) as [| |p] eqn:Hp; try discriminate. eauto.
  - intros (c & p & -> & -> & H). exact H.
Qed.

(** C4. On an accepted result the decoder publishes, as the [solution]
    ref, as the payload of [solution-updated] and so as the [solution] of
    App.vue, the assignments that its loop appends student by student.  For
    a student [i] that the loop does not pass over (a non-empty name and a
    weight row, as extraction always gives), these are one per project
    [j < numProjects] whose column [x_i_j] is present with a [Primal] above
    0.5, in the order of [j], and no other.  A column that is absent, or has
    no [Primal], or an undefined one, gives no assignment and no error:
    decoding never throws.  Each assignment carries the student's name and
    the entry [weights[i][j]] as it stands. *)
Theorem C4_assignments_follow_primal (result : RawResult) (students : list string)
    (weights : list (list number)) (numStudents numProjects i : nat) (name : string)
    (ws : list number) (st : State) :
  isOptimalOrFeasible (string_or (Status result) "") = true ->
  students !! i = Some name -> name <> "" -> weights !! i = Some ws ->
  let st' := snd (decode result students weights numStudents numProjects st) in
  fst (decode result students weights numStudents numProjects st) = inr tt
  /\ solution st'
     = flat_map (emitted_for result students weights numProjects) (seq 0 numStudents)
  /\ App_solution st' = solution st'
  /\ emitted st' = emitted st ++ [solution st']
  /\ errorMessage st' = errorMessage st
  /\ extract_assignments result students weights numStudents numProjects
     = flat_map (emitted_for result students weights numProjects) (seq 0 numStudents)
  /\ emitted_for result students weights numProjects i
     = map (fun j => {| studentName := name; projectIndex := j;
                        weight := weight_at weights i j |})
         (List.filter (fun j => primal_above_half (column_of result (varName i j)))
            (seq 0 numProjects))
  /\ (forall j,
        In {| studentName := name; projectIndex := j; weight := weight_at weights i j |}
           (emitted_for result students weights numProjects i)
        <-> j < numProjects
            /\ exists c p, column_of result (varName i j) = Some c
                           /\ Primal c = Value p /\ num_gt p half = true)
  /\ (forall a,
        In a (emitted_for result students weights numProjects i) ->
        studentName a = name /\ projectIndex a < numProjects
        /\ weight a = weight_at weights i (projectIndex a)
        /\ weight a = default zero (ws !! projectIndex a))
  /\ (forall j,
        column_of result (varName i j) = None
        \/ (exists c, column_of result (varName i j) = Some c
                      /\ (Primal c = Absent \/ Primal c = Undefined)) ->
        forall a, In a (emitted_for result students weights numProjects i) ->
                  projectIndex a <> j)
  /\ (i < numStudents ->
      forall a, In a (emitted_for result students weights numProjects i) ->
                In a (solution st')).
Proof.
  intros Hacc Hname Hne Hws st'.
  pose proof (emitted_for_eq result students weights numProjects i name ws
                Hname Hne Hws) as Heq.
  assert (solution st'
          = flat_map (emitted_for result students weights numProjects) (seq 0 numStudents))
    as Hsol.
  { subst st'. rewrite decode_branches, Hacc. cbn [snd].
    rewrite <- extract_assignments_eq. reflexivity. }
  split; [rewrite decode_branches; reflexivity|].
  split; [exact Hsol|].
  split; [subst st'; rewrite decode_branches, Hacc; reflexivity|].
  split; [subst st'; rewrite decode_branches, Hacc; reflexivity|].
  split; [subst st'; rewrite decode_branches, Hacc; reflexivity|].
  split; [apply extract_assignments_eq|].
  split; [exact Heq|].
  split.
  { intros j. rewrite Heq, in_map_iff, <- primal_above_half_spec. split.
    - intros (j' & [= <-] & Hin). apply in_crossing in Hin. exact Hin.
    - intros Hj. exists j. split; [reflexivity | apply in_crossing, Hj]. }
  split.
  { intros a. rewrite Heq, in_map_iff. intros (j & <- & Hin).
    apply in_crossing in Hin as [Hj _]. cbn. unfold weight_at. rewrite Hws. auto. }
  split.
  { intros j Hmissing a. rewrite Heq, in_map_iff. intros (j' & <- & Hin) Hj.
    cbn in Hj. subst j'. apply in_crossing in Hin as [_ Habove].
    apply primal_above_half_spec in Habove as (c & p & Hc & Hp & _).
    destruct Hmissing as [Hnone|(c' & Hc' & [Hp'|Hp'])]; congruence. }
  intros Hi a Ha. rewrite Hsol. apply in_flat_map. exists i.
  split; [apply in_seq; lia | exact Ha].
Qed.

Lemma C4_witness :
  (isOptimalOrFeasible (string_or (Status sample_result) "") = true
   /\ ["Ana"; "Bo"] !! 1 = Some "Bo" /\ "Bo" <> ""
   /\ [[Fin 5; Fin 0]; [Fin 0; Fin 3]] !! 1 = Some [Fin 0; Fin 3])
  /\ solution (snd (decode sample_result ["Ana"; "Bo"]
                      [[Fin 5; Fin 0]; [Fin 0; Fin 3]] 2 2 initial_state))
     = flat_map (emitted_for sample_result ["Ana"; "Bo"]
                   [[Fin 5; Fin 0]; [Fin 0; Fin 3]] 2) (seq 0 2)
  /\ emitted_for sample_result ["Ana"; "Bo"] [[Fin 5; Fin 0]; [Fin 0; Fin 3]] 2 1
     = map (fun j => {| studentName := "Bo"; projectIndex := j;
                        weight := weight_at [[Fin 5; Fin 0]; [Fin 0; Fin 3]] 1 j |})
         (List.filter (fun j => primal_above_half (column_of sample_result (varName 1 j)))
            (seq 0 2)).
Proof.
  assert ("Bo" <> "") as Hne by discriminate.
  split.
  { split; [reflexivity|]. split; [reflexivity|]. split; [exact Hne | reflexivity]. }
  destruct (C4_assignments_follow_primal sample_result ["Ana"; "Bo"]
              [[Fin 5; Fin 0]; [Fin 0; Fin 3]] 2 2 1 "Bo" [Fin 0; Fin 3] initial_state
              eq_refl eq_refl Hne eq_refl)
    as (_ & Hsol & _ & _ & _ & _ & Hrow & _).
  split; [exact Hsol | exact Hrow].
Defined.

Lemma emitted_for_names (result : RawResult) (students : list string)
    (weights : list (list number)) (numProjects i : nat) (a : Assignment) :
  In a (emitted_for result students weights numProjects i) ->
  students !! i = Some (studentName a).
Proof.
  unfold emitted_for.
  destruct (students !! i) as [name|]; [|intros []].
  destruct (weights !! i) as [ws|]; [|intros []].
  destruct (String.eqb name ""); [intros []|].
  rewrite student_assignments_eq. cbn [app]. rewrite in_map_iff.
  intros (j & <- & _). reflexivity.
Qed.

Lemma filter_none {A : Type} (keep : A -> bool) (l : list A) :
  (forall a, In a l -> keep a = false) -> List.filter keep l = [].
Proof.
  induction l as [|x l IH]; intros H; [reflexivity|].
  cbn [List.filter]. rewrite (H x) by (left; reflexivity).
  apply IH. intros a Ha. apply H. right. exact Ha.
Qed.

Lemma filter_all {A : Type} (keep : A -> bool) (l : list A) :
  (forall a, In a l -> keep a = true) -> List.filter keep l = l.
Proof.
  induction l as [|x l IH]; intros H; [reflexivity|].
  cbn [List.filter]. rewrite (H x) by (left; reflexivity).
  f_equal. apply IH. intros a Ha. apply H. right. exact Ha.
Qed.

(** Among the assignments decoded for distinct names, those of one name are
    the ones that the iteration of that student appended. *)
Lemma assignments_named_eq (result : RawResult) (students : list string)
    (weights : list (list number)) (numProjects i : nat) (name : string) :
  NoDup students -> students !! i = Some name ->
  assignments_named name
    (extract_assignments result students weights (length students) numProjects)
  = emitted_for result students weights numProjects i.
Proof.
  intros Hnodup Hname.
  assert (i < length students) as Hi by (eapply lookup_lt_Some; exact Hname).
  assert (forall i', i' <> i ->
            List.filter (fun a => String.eqb (studentName a) name)
              (emitted_for result students weights numProjects i') = []) as Hother.
  { intros i' Hne. apply filter_none. intros a Ha.
    apply emitted_for_names in Ha. apply String.eqb_neq. intros Heq.
    rewrite Heq in Ha. apply Hne. eapply NoDup_lookup; eassumption. }
  unfold assignments_named. rewrite extract_assignments_eq.
  replace (length students) with (i + S (length students - S i)) by lia.
  rewrite seq_app, flat_map_app, List.filter_app. cbn [seq flat_map Nat.add].
  rewrite List.filter_app.
  rewrite (filter_flat_map_nil _ _ (seq 0 i)).
  2:{ intros i' [_ Hlt]%in_seq. apply Hother. lia. }
  rewrite (filter_flat_map_nil _ _ (seq (S i) _)).
  2:{ intros i' [Hgt _]%in_seq. apply Hother. lia. }
  rewrite app_nil_r. cbn [app]. apply filter_all.
  intros a Ha. apply emitted_for_names in Ha. apply String.eqb_eq. congruence.
Qed.

(** C3 (as the code has it). The decoder does not check that a student is
    assigned once.  On an accepted result, and for distinct, non-empty
    student names with a weight row each, the assignments published for a
    student are as many as the variables of that student above 0.5: exactly
    one when, and only when, exactly one of them is. *)
Theorem C3_assignments_per_student (result : RawResult) (students : list string)
    (weights : list (list number)) (numProjects i : nat) (name : string) (st : State) :
  isOptimalOrFeasible (string_or (Status result) "") = true ->
  NoDup students ->
  Forall (fun n => n <> "") students ->
  length weights = length students ->
  students !! i = Some name ->
  let st' := snd (decode result students weights (length students) numProjects st) in
  length (assignments_named name (solution st'))
  = length (List.filter (fun j => primal_above_half (column_of result (varName i j)))
              (seq 0 numProjects))
  /\ (length (assignments_named name (solution st')) = 1
      <-> length (List.filter
                    (fun j => primal_above_half (column_of result (varName i j)))
                    (seq 0 numProjects)) = 1).
Proof.
  intros Hacc Hnodup Hnames Hlen Hname st'.
  assert (solution st'
          = extract_assignments result students weights (length students) numProjects)
    as ->.
  { subst st'. rewrite decode_branches, Hacc. reflexivity. }
  rewrite (assignments_named_eq _ _ _ _ i name Hnodup Hname).
  assert (name <> "") as Hne.
  { rewrite Forall_forall in Hnames. apply Hnames, list_elem_of_lookup. eauto. }
  destruct (lookup_lt_is_Some_2 weights i) as [ws Hws].
  { rewrite Hlen. eapply lookup_lt_Some. exact Hname. }
  rewrite (emitted_for_eq _ _ _ _ _ _ _ Hname Hne Hws), length_map.
  unfold crossing. split; [reflexivity | tauto].
Qed.

(** The spec's sentence fails on the code: an accepted result in which
    both variables of the only student are 1 gives that student two
    assignments, and one with no column gives none. *)
Lemma C3_counterexample :
  let both := {| Status := Some "Optimal"; ObjectiveValue := Some (Fin 3);
                 Columns := Some (<["x_0_0" := column_with (Fin 1)]>
                                  (<["x_0_1" := column_with (Fin 1)]> ∅)) |} in
  let none := {| Status := Some "Optimal"; ObjectiveValue := Some (Fin 0);
                 Columns := Some ∅ |} in
  isOptimalOrFeasible (string_or (Status both) "") = true
  /\ isOptimalOrFeasible (string_or (Status none) "") = true
  /\ assignments_named "Ana"
       (solution (snd (decode both ["Ana"] [[Fin 1; Fin 2]] 1 2 initial_state)))
     = [ {| studentName := "Ana"; projectIndex := 0; weight := Fin 1 |};
         {| studentName := "Ana"; projectIndex := 1; weight := Fin 2 |} ]
  /\ assignments_named "Ana"
       (solution (snd (decode none ["Ana"] [[Fin 1; Fin 2]] 1 2 initial_state)))
     = [].
Proof. vm_compute. repeat split; reflexivity. Qed.

Lemma C3_witness :
  isOptimalOrFeasible (string_or (Status sample_result) "") = true
  /\ length (assignments_named "Bo"
               (solution (snd (decode sample_result ["Ana"; "Bo"]
                                 [[Fin 5; Fin 0]; [Fin 0; Fin 3]] 2 2 initial_state))))
     = 1.
Proof.
  split; [reflexivity|].
  assert (NoDup ["Ana"; "Bo"]) as Hnodup.
  { apply NoDup_cons. split; [|apply NoDup_singleton].
    intros Hin%list_elem_of_In. destruct Hin as [Heq|[]]. discriminate Heq. }
  assert (Forall (fun n => n <> "") ["Ana"; "Bo"]) as Hnames
    by (repeat constructor; discriminate).
  apply (C3_assignments_per_student sample_result ["Ana"; "Bo"]
           [[Fin 5; Fin 0]; [Fin 0; Fin 3]] 2 1 "Bo" initial_state
           eq_refl Hnodup Hnames eq_refl eq_refl).
  reflexivity.
Defined.

(** ** Failures of [solve] *)

Section FailureClaims.

Context `{RT : JsRuntime}.

Lemma require_dimensions_fail (weights : list (list number)) (numProjects : nat)
    (st : State) :
  Exists (fun w => length w <> numProjects) weights ->
  require_dimensions weights numProjects st
  = (inl (ThrownError "Inconsistent number of project weights"), st).
Proof.
  intros Hex. unfold require_dimensions.
  assert (existsb (fun w => negb (length w =? numProjects)) weights = true) as ->;
    [|reflexivity].
  apply existsb_exists. apply Exists_exists in Hex as (w & Hin & Hw).
  exists w. split; [apply list_elem_of_In, Hin|].
  apply negb_true_iff, Nat.eqb_neq, Hw.
Qed.

(** C7. [solve] goes no further than its guard, with the message "Cannot
    solve: Missing data or project limits" and nothing handed to the solver,
    when the number of capacity limits differs from the number of projects
    [headers.length - 1]; so it does for 3 projects and 2 limits.  Past the
    guard, a weight row whose length differs from the number of limits makes
    the [try] block throw "Inconsistent number of project weights" before
    any document is built: no ref is written and the solver is not called. *)
Theorem C7_dimension_mismatch (P : Props) (highs : Solver) (st : State) :
  (Z.of_nat (length (projectLimits P)) <> (Z.of_nat (length (headers P)) - 1)%Z ->
   solve P highs st = set_errorMessage "Cannot solve: Missing data or project limits" st
   /\ solver_inputs (solve P highs st) = solver_inputs st
   /\ emitted (solve P highs st) = emitted st)
  /\ (length (headers P) = 4 -> length (projectLimits P) = 2 ->
      errorMessage (solve P highs st) = "Cannot solve: Missing data or project limits"
      /\ solver_inputs (solve P highs st) = solver_inputs st)
  /\ (forall students weights limits,
        students <> [] ->
        Exists (fun w => length w <> length limits) weights ->
        after_extraction students weights limits highs st
        = (inl (ThrownError "Inconsistent number of project weights"), st)).
Proof.
  assert (Z.of_nat (length (projectLimits P)) <> (Z.of_nat (length (headers P)) - 1)%Z ->
          solve P highs st
          = set_errorMessage "Cannot solve: Missing data or project limits" st) as Hguard.
  { intros Hne. apply solve_guard_closed. unfold canSolve.
    apply Z.eqb_neq in Hne. rewrite Hne. apply andb_false_r. }
  split.
  { intros Hne. rewrite (Hguard Hne). repeat split; reflexivity. }
  split.
  { intros Hh Hl. rewrite Hguard by lia. split; reflexivity. }
  intros students weights limits Hne Hex.
  rewrite after_extraction_cases.
  destruct students as [|s students]; [congruence|]. cbn [length Nat.eqb].
  pose proof (require_dimensions_fail weights (length limits) st Hex) as Hfail.
  unfold require_dimensions, when in Hfail.
  destruct (existsb _ weights); [reflexivity | discriminate Hfail].
Qed.

End FailureClaims.

Lemma C7_witness :
  let P := {| tableData := [[]];
              rawData := [Some [CStr "Ana"; CNum (Fin 1); CNum (Fin 2); CNum (Fin 3)]];
              headers := ["Column 1"; "Column 2"; "Column 3"; "Column 4"];
              projectLimits := [ {| min := Fin 0; max := Fin 10 |};
                                 {| min := Fin 0; max := Fin 10 |} ] |} in
  let highs := fun _ => Solved sample_result in
  (length (headers P) = 4 /\ length (projectLimits P) = 2)
  /\ errorMessage (solve (RT := RefRuntime.runtime) P highs initial_state)
     = "Cannot solve: Missing data or project limits"
  /\ solver_inputs (solve (RT := RefRuntime.runtime) P highs initial_state) = []
  /\ after_extraction (RT := RefRuntime.runtime) ["Ana"] [[Fin 1; Fin 2; Fin 3]]
       (projectLimits P) highs initial_state
     = (inl (ThrownError "Inconsistent number of project weights"), initial_state).
Proof.
  intros P highs.
  destruct (C7_dimension_mismatch (RT := RefRuntime.runtime) P highs initial_state)
    as (_ & Hthree & Hrows).
  split; [split; reflexivity|].
  destruct (Hthree eq_refl eq_refl) as [Hmsg Hinputs].
  split; [exact Hmsg|]. split; [exact Hinputs|].
  apply Hrows; [discriminate|].
  apply Exists_cons_hd. cbn. lia.
Defined.

(** C9. A second [solve] on the same data, after one that succeeded, in
    which the solver fails to load: the error is caught and shown, and the
    component's own [solution] ref is empty, but no [solution-updated] is
    emitted, so the [solution] of App.vue (which FileUpload highlights) is
    still the one of the first solve. *)
Theorem C9_failed_resolve_keeps_published_solution :
  let ok := fun _ : string => Solved sample_result in
  let failing := fun _ : string => LoadFailed (ThrownError "Failed to fetch") in
  let st1 := solve (RT := RefRuntime.runtime) sample_props ok initial_state in
  let st2 := solve (RT := RefRuntime.runtime) sample_props failing st1 in
  App_solution st1
  = [ {| studentName := "Ana"; projectIndex := 1; weight := Fin 0 |};
      {| studentName := "Bo"; projectIndex := 0; weight := Fin 0 |} ]
  /\ errorMessage st2 = "Failed to fetch"
  /\ isSolving st2 = false
  /\ solution st2 = []
  /\ emitted st2 = emitted st1
  /\ App_solution st2 = App_solution st1.
Proof. vm_compute. repeat split; reflexivity. Qed.

(** * The rest of the application *)

(** ** Names of the variables *)

Lemma app_inv_tail_s (a b c : string) : a +:+ c = b +:+ c -> a = b.
Proof.
  assert (forall x y, String.length (x +:+ y) = String.length x + String.length y) as Hlen.
  { intros x y. induction x as [|h x IH]; [reflexivity|].
    rewrite app_cons_s. cbn [String.length]. rewrite IH. reflexivity. }
  revert b. induction a as [|x a IH]; intros b H.
  - destruct b as [|y b]; [reflexivity|].
    apply (f_equal String.length) in H. rewrite !Hlen in H. cbn in H. lia.
  - destruct b as [|y b].
    + apply (f_equal String.length) in H. rewrite !Hlen in H. cbn in H. lia.
    + rewrite !app_cons_s in H. injection H as -> H. f_equal. apply IH, H.
Qed.

Lemma NoDup_map_injective {A B : Type} (f : A -> B) (l : list A) :
  (forall x y, f x = f y -> x = y) -> List.NoDup l -> List.NoDup (map f l).
Proof.
  intros Hinj. induction 1 as [|x l Hx _ IH]; cbn; constructor; [|exact IH].
  rewrite in_map_iff. intros (y & Hy & Hin). apply Hinj in Hy. congruence.
Qed.

Lemma pretty_N_go_lacks_underscore (x : N) (s : string) :
  lacks "_" s -> lacks "_" (pretty_N_go x s).
Proof.
  revert s. induction (N.lt_wf_0 x) as [x _ IH]; intros s Hs.
  assert (x = 0 \/ 0 < x)%N as [->|Hpos] by lia.
  - rewrite pretty_N_go_0. exact Hs.
  - rewrite pretty_N_go_step by exact Hpos. apply IH.
    + apply N.div_lt; [exact Hpos | reflexivity].
    + split; [|exact Hs]. unfold pretty_N_char.
      repeat case_match; discriminate.
Qed.

Lemma pretty_nat_lacks_underscore (n : nat) : lacks "_" (pretty n).
Proof.
  unfold pretty, pretty_nat, pretty, pretty_N.
  case_decide; [cbn; split; [discriminate | exact I]|].
  apply pretty_N_go_lacks_underscore. exact I.
Qed.

Lemma split_at_underscore (a a' b b' : string) :
  lacks "_" a -> lacks "_" a' ->
  a +:+ "_" +:+ b = a' +:+ "_" +:+ b' -> a = a' /\ b = b'.
Proof.
  revert a'. induction a as [|x a IH]; intros [|x' a'] Ha Ha' H.
  - injection H as H. auto.
  - rewrite app_cons_s in H. injection H as Hx _. destruct Ha' as [Hne _]. congruence.
  - rewrite app_cons_s in H. injection H as Hx _. destruct Ha as [Hne _]. congruence.
  - rewrite !app_cons_s in H. injection H as -> H.
    destruct Ha as [_ Ha], Ha' as [_ Ha'].
    destruct (IH a' Ha Ha' H) as [-> ->]. auto.
Qed.

Lemma varName_inj (i j i' j' : nat) : varName i j = varName i' j' -> i = i' /\ j = j'.
Proof.
  unfold varName. intros H. apply String.app_inj in H.
  apply split_at_underscore in H as [Hi Hj]; try apply pretty_nat_lacks_underscore.
  split; eapply pretty_nat_inj; eassumption.
Qed.

Lemma varNames_NoDup (numStudents numProjects : nat) :
  List.NoDup (map (fun p => varName (fst p) (snd p))
                (list_prod (seq 0 numStudents) (seq 0 numProjects))).
Proof.
  apply NoDup_map_injective.
  - intros [i j] [i' j'] H. cbn in H. apply varName_inj in H as [-> ->]. reflexivity.
  - apply pair_lt_sorted_NoDup, list_prod_seq_sorted.
Qed.

(** X1. The variables of two different pairs (student, project) have
    different names, so the names declared in the document for a model of
    any size are pairwise distinct, and so are the lines of the sections
    [Bounds] and [Binary]. *)
Theorem X1_variable_names_distinct (numStudents numProjects : nat) :
  (forall i j i' j', varName i j = varName i' j' -> i = i' /\ j = j')
  /\ List.NoDup (map (fun p => varName (fst p) (snd p))
                   (list_prod (seq 0 numStudents) (seq 0 numProjects)))
  /\ List.NoDup (variable_lines bound_line numStudents numProjects)
  /\ List.NoDup (variable_lines binary_line numStudents numProjects)
  /\ length (variable_lines binary_line numStudents numProjects)
     = numStudents * numProjects.
Proof.
  assert (List.NoDup (list_prod (seq 0 numStudents) (seq 0 numProjects))) as Hpairs.
  { apply pair_lt_sorted_NoDup, list_prod_seq_sorted. }
  split; [exact varName_inj|].
  split; [apply varNames_NoDup|].
  split; [|split].
  - apply NoDup_map_injective; [|exact Hpairs].
    intros [i j] [i' j'] H. cbn in H. unfold bound_line in H.
    apply String.app_inj in H. rewrite <- !app_assoc_s in H.
    apply app_inv_tail_s, app_inv_tail_s in H.
    apply varName_inj in H as [-> ->]. reflexivity.
  - apply NoDup_map_injective; [|exact Hpairs].
    intros [i j] [i' j'] H. cbn in H. unfold binary_line in H.
    apply String.app_inj in H. apply app_inv_tail_s in H.
    apply varName_inj in H as [-> ->]. reflexivity.
  - unfold variable_lines. rewrite length_map, length_prod, !length_seq. reflexivity.
Qed.

(** ** Reading back a choice written under the names of the document *)

Lemma column_of_choice (chosen : nat -> nat -> bool) (numStudents numProjects i j : nat) :
  i < numStudents -> j < numProjects ->
  column_of (result_of_choice chosen numStudents numProjects) (varName i j)
  = Some (column_with (if chosen i j then Fin 1 else Fin 0)).
Proof.
  intros Hi Hj. unfold column_of, result_of_choice. cbn [Columns].
  apply elem_of_list_to_map_1.
  - rewrite <- list_fmap_compose. apply NoDup_ListNoDup.
    apply (varNames_NoDup numStudents numProjects).
  - apply list_elem_of_In, in_map_iff. exists (i, j). split; [reflexivity|].
    apply in_prod_iff. rewrite !in_seq. lia.
Qed.

Lemma crossing_of_choice (chosen : nat -> nat -> bool) (numStudents numProjects i : nat) :
  i < numStudents ->
  crossing (result_of_choice chosen numStudents numProjects) i numProjects
  = List.filter (chosen i) (seq 0 numProjects).
Proof.
  intros Hi. unfold crossing. apply filter_ext_in. intros j [_ Hj]%in_seq.
  rewrite column_of_choice by lia. destruct (chosen i j); reflexivity.
Qed.

Lemma flat_map_ext_seq {B : Type} (f g : nat -> list B) (n : nat) :
  (forall i, i < n -> f i = g i) -> flat_map f (seq 0 n) = flat_map g (seq 0 n).
Proof.
  intros H. rewrite !flat_map_concat_map. f_equal.
  apply map_ext_in. intros i [_ Hi]%in_seq. apply H. lia.
Qed.

(** X2. A raw result that holds, under each variable name of the
    document, the value 1 for the chosen pairs and 0 for the others is
    accepted and decoded to exactly the chosen pairs, students outer and
    projects inner, each with the student's name and its weight: the names
    written by the encoder and those looked up by the decoder agree. *)
Theorem X2_decode_reads_back_choice (chosen : nat -> nat -> bool) (students : list string)
    (weights : list (list number)) (numProjects : nat) :
  Forall (fun n => n <> "") students ->
  length weights = length students ->
  let result := result_of_choice chosen (length students) numProjects in
  isOptimalOrFeasible (string_or (Status result) "") = true
  /\ extract_assignments result students weights (length students) numProjects
     = flat_map
         (fun i => map (fun j => {| studentName := default "" (students !! i);
                                    projectIndex := j;
                                    weight := weight_at weights i j |})
                     (List.filter (chosen i) (seq 0 numProjects)))
         (seq 0 (length students)).
Proof.
  intros Hnames Hlen result. split; [reflexivity|].
  rewrite extract_assignments_eq. apply flat_map_ext_seq. intros i Hi.
  destruct (lookup_lt_is_Some_2 students i Hi) as [name Hname].
  destruct (lookup_lt_is_Some_2 weights i) as [ws Hws]; [lia|].
  assert (name <> "") as Hne.
  { rewrite Forall_forall in Hnames. apply Hnames, list_elem_of_lookup. eauto. }
  rewrite (emitted_for_eq _ _ _ _ _ _ _ Hname Hne Hws).
  subst result. rewrite crossing_of_choice by exact Hi. rewrite Hname. reflexivity.
Qed.

Lemma X2_witness :
  let chosen := fun i j : nat => Nat.eqb (i + j) 1 in
  extract_assignments (result_of_choice chosen 2 2) ["Ana"; "Bo"]
    [[Fin 5; Fin 0]; [Fin 0; Fin 3]] 2 2
  = [ {| studentName := "Ana"; projectIndex := 1; weight := Fin 0 |};
      {| studentName := "Bo"; projectIndex := 0; weight := Fin 0 |} ].
Proof.
  intros chosen.
  assert (Forall (fun n => n <> "") ["Ana"; "Bo"]) as Hnames
    by (repeat constructor; discriminate).
  destruct (X2_decode_reads_back_choice chosen ["Ana"; "Bo"]
              [[Fin 5; Fin 0]; [Fin 0; Fin 3]] 2 Hnames eq_refl) as [_ H].
  refine (eq_trans H _). reflexivity.
Defined.

(** ** Highlighting the solution in the sheet *)

Lemma trimEnd_cons (c : ascii) (s : string) :
  trimEnd (String c s)
  = match trimEnd s with
    | "" => if is_white_space c then "" else String c ""
    | String d t => String c (String d t)
    end.
Proof. reflexivity. Qed.

Lemma trimEnd_idem (s : string) : trimEnd (trimEnd s) = trimEnd s.
Proof.
  induction s as [|c s IH]; [reflexivity|].
  rewrite trimEnd_cons. destruct (trimEnd s) as [|d t] eqn:Ht.
  - destruct (is_white_space c) eqn:Hc; [reflexivity|].
    rewrite trimEnd_cons. cbn [trimEnd]. rewrite Hc. reflexivity.
  - rewrite (trimEnd_cons c (String d t)), IH. reflexivity.
Qed.

Lemma trimStart_trimEnd_trimStart (s : string) :
  trimStart (trimEnd (trimStart s)) = trimEnd (trimStart s).
Proof.
  induction s as [|c s IH]; [reflexivity|].
  cbn [trimStart]. destruct (is_white_space c) eqn:Hc; [exact IH|].
  rewrite trimEnd_cons.
  destruct (trimEnd s) as [|d t]; rewrite ?Hc; cbn [trimStart]; rewrite Hc; reflexivity.
Qed.

Lemma trim_idem (s : string) : trim (trim s) = trim s.
Proof. unfold trim. rewrite trimStart_trimEnd_trimStart. apply trimEnd_idem. Qed.

Section HighlightFacts.

Context `{RT : JsRuntime}.

Lemma name_of_row_trimmed (row : list cell) : trim (name_of_row row) = name_of_row row.
Proof. unfold name_of_row. apply trim_idem. Qed.

Lemma extracted_names_trimmed (rawData : list (option (list cell))) (headers : list string) :
  Forall (fun n => trim n = n) (fst (extract rawData headers)).
Proof.
  rewrite extract_eq. cbn [fst]. apply Forall_map, Forall_forall.
  intros row _. apply name_of_row_trimmed.
Qed.

Lemma isCellHighlighted_spec (solution : list Assignment)
    (rawData : list (option (list cell))) (rowIndex colIndex : nat) :
  FileUpload.isCellHighlighted (Some solution) rawData rowIndex colIndex = true
  <-> colIndex <> 0
      /\ exists row, rawData !! rowIndex = Some (Some row)
           /\ row_is_skipped (Some row) = false
           /\ exists a, In a solution /\ trim (studentName a) = name_of_row row
                        /\ projectIndex a = colIndex - 1.
Proof.
  unfold FileUpload.isCellHighlighted.
  assert (forall row,
            existsb (fun a => String.eqb
                                (trim (if String.eqb (studentName a) "" then ""
                                       else studentName a)) (name_of_row row)
                              && (projectIndex a =? colIndex - 1)) solution = true
            <-> exists a, In a solution /\ trim (studentName a) = name_of_row row
                          /\ projectIndex a = colIndex - 1) as Hex.
  { intros row. rewrite existsb_exists. split; intros (a & Hin & H); exists a.
    - apply andb_true_iff in H as [Hn Hp]. apply String.eqb_eq in Hn.
      apply Nat.eqb_eq in Hp. split; [exact Hin|]. split; [|exact Hp].
      destruct (String.eqb (studentName a) "") eqn:He; [|exact Hn].
      apply String.eqb_eq in He. rewrite He. exact Hn.
    - destruct H as [Hn Hp]. split; [exact Hin|]. apply andb_true_iff. split.
      + apply String.eqb_eq.
        destruct (String.eqb (studentName a) "") eqn:He; [|exact Hn].
        apply String.eqb_eq in He. rewrite He in Hn. exact Hn.
      + apply Nat.eqb_eq, Hp. }
  destruct solution as [|a0 solution].
  { split; [discriminate|]. intros (_ & row & _ & _ & a & [] & _). }
  destruct (colIndex =? 0) eqn:Hcol.
  { apply Nat.eqb_eq in Hcol. split; [discriminate | intros [H _]; congruence]. }
  apply Nat.eqb_neq in Hcol.
  destruct (rawData !! rowIndex) as [[row|]|] eqn:Hrow.
  - cbn [row_is_skipped]. destruct (length row =? 0) eqn:Hlen.
    { split; [discriminate|]. intros (_ & row' & [= <-] & Hs & _).
      cbn in Hs. rewrite Hlen in Hs. discriminate. }
    destruct (String.eqb (name_of_row row) "") eqn:Hname.
    { split; [discriminate|]. intros (_ & row' & [= <-] & Hs & _).
      cbn in Hs. rewrite Hlen, Hname in Hs. discriminate. }
    cbv zeta. rewrite Hex. split.
    + intros H. split; [exact Hcol|]. exists row. split; [reflexivity|].
      split; [cbn; rewrite Hlen, Hname; reflexivity | exact H].
    + intros (_ & row' & [= <-] & _ & H). exact H.
  - split; [discriminate | intros (_ & row' & [=] & _)].
  - split; [discriminate | intros (_ & row' & [=] & _)].
Qed.

(** X3. A cell of the sheet is highlighted exactly when it is not in
    column 0, its row is one that extraction keeps as a student, and the
    solution holds an assignment with that row's trimmed name and the
    project [colIndex - 1].  Nothing is highlighted without a solution, in
    column 0, or in a row that extraction passes over; and the rows that
    share a name are highlighted alike. *)
Theorem X3_highlight_cases (solution : list Assignment)
    (rawData : list (option (list cell))) (rowIndex colIndex : nat) :
  (FileUpload.isCellHighlighted (Some solution) rawData rowIndex colIndex = true
   <-> colIndex <> 0
       /\ exists row, rawData !! rowIndex = Some (Some row)
            /\ row_is_skipped (Some row) = false
            /\ exists a, In a solution /\ trim (studentName a) = name_of_row row
                         /\ projectIndex a = colIndex - 1)
  /\ FileUpload.isCellHighlighted None rawData rowIndex colIndex = false
  /\ FileUpload.isCellHighlighted (Some []) rawData rowIndex colIndex = false
  /\ FileUpload.isCellHighlighted (Some solution) rawData rowIndex 0 = false
  /\ (forall r, rawData !! rowIndex = Some r -> row_is_skipped r = true ->
        FileUpload.isCellHighlighted (Some solution) rawData rowIndex colIndex = false)
  /\ (forall rowIndex' row row',
        rawData !! rowIndex = Some (Some row) ->
        rawData !! rowIndex' = Some (Some row') ->
        row_is_skipped (Some row) = false -> row_is_skipped (Some row') = false ->
        name_of_row row = name_of_row row' ->
        FileUpload.isCellHighlighted (Some solution) rawData rowIndex colIndex
        = FileUpload.isCellHighlighted (Some solution) rawData rowIndex' colIndex).
Proof.
  split; [apply isCellHighlighted_spec|].
  split; [reflexivity|]. split; [reflexivity|].
  split; [destruct solution; reflexivity|].
  split.
  - intros r Hr Hs.
    destruct (FileUpload.isCellHighlighted (Some solution) rawData rowIndex colIndex)
      eqn:H; [|reflexivity].
    apply isCellHighlighted_spec in H as (_ & row & Hrow & Hkept & _).
    congruence.
  - intros rowIndex' row row' Hr Hr' Hk Hk' Hname.
    apply eq_true_iff_eq. rewrite !isCellHighlighted_spec.
    split; intros (Hc & x & Hx & _ & H); (split; [exact Hc|]).
    + exists row'. rewrite <- Hname. assert (x = row) as -> by congruence. auto.
    + exists row. rewrite Hname. assert (x = row') as -> by congruence. auto.
Qed.

(** X4. After a [solve] that the decoder accepts, with distinct student
    names, the highlighted cells of the sheet are the chosen variables: the
    row of student [k] is highlighted in column [j + 1] exactly when
    [j < numProjects] and the column [x_k_j] of the result has a [Primal]
    above 0.5. *)
Theorem X4_highlight_after_solve (P : Props) (highs : Solver) (st : State)
    (result : RawResult) (rowIndex : nat) (row : list cell) :
  canSolve P = true ->
  let students := fst (extract (rawData P) (headers P)) in
  let weights := snd (extract (rawData P) (headers P)) in
  let numProjects := length (projectLimits P) in
  highs (formulate weights (projectLimits P) (length students) numProjects)
  = Solved result ->
  isOptimalOrFeasible (string_or (Status result) "") = true ->
  NoDup students ->
  rawData P !! rowIndex = Some (Some row) ->
  row_is_skipped (Some row) = false ->
  exists k, students !! k = Some (name_of_row row)
    /\ forall j,
         FileUpload.isCellHighlighted (Some (App_solution (solve P highs st)))
           (rawData P) rowIndex (S j) = true
         <-> j < numProjects
             /\ primal_above_half (column_of result (varName k j)) = true.
Proof.
  intros Hcan students weights numProjects Hsolved Hacc Hnodup Hrow Hkept.
  assert (In (name_of_row row) students) as Hin.
  { subst students. rewrite extract_eq. cbn [fst]. apply in_map, in_kept_rows.
    split; [|exact Hkept]. apply list_elem_of_In, list_elem_of_lookup. eauto. }
  apply list_elem_of_In, list_elem_of_lookup in Hin as [k Hk].
  exists k. split; [exact Hk|]. intros j.
  assert (students <> []) as Hne by (intros Hnil; rewrite Hnil in Hk; discriminate).
  rewrite (solve_reaches_decode P highs st result Hcan Hne Hsolved).
  rewrite decode_branches, Hacc.
  change (App_solution (set_isSolving false (_, accepted_state result ?a ?s).2))
    with a.
  fold students weights numProjects.
  destruct (extract_well_formed (rawData P) (headers P)) as [Hnames Hlen].
  fold students weights in Hnames, Hlen.
  pose proof (extracted_names_trimmed (rawData P) (headers P)) as Htrim.
  fold students in Htrim.
  assert (name_of_row row <> "") as Hname_ne.
  { rewrite Forall_forall in Hnames. apply Hnames, list_elem_of_lookup. eauto. }
  destruct (lookup_lt_is_Some_2 weights k) as [ws Hws].
  { rewrite Hlen. eapply lookup_lt_Some. exact Hk. }
  pose proof (assignments_named_eq result students weights numProjects k
                (name_of_row row) Hnodup Hk) as Hnamed.
  rewrite (emitted_for_eq _ _ _ _ _ _ _ Hk Hname_ne Hws) in Hnamed.
  rewrite isCellHighlighted_spec. cbn [Nat.sub]. rewrite Nat.sub_0_r.
  rewrite <- in_crossing. split.
  - intros (_ & row' & Hrow' & _ & a & Ha & Htrim_a & Hj).
    assert (row' = row) as -> by congruence.
    assert (studentName a = name_of_row row) as Hname_a.
    { rewrite <- Htrim_a. symmetry.
      rewrite Forall_forall in Htrim. apply Htrim.
      rewrite extract_assignments_eq in Ha.
      apply in_flat_map in Ha as (i & _ & Ha). apply emitted_for_names in Ha.
      apply list_elem_of_lookup. eauto. }
    assert (In a (assignments_named (name_of_row row)
                    (extract_assignments result students weights (length students)
                       numProjects))) as Hin.
    { unfold assignments_named. apply filter_In. split; [exact Ha|].
      apply String.eqb_eq, Hname_a. }
    rewrite Hnamed in Hin. apply in_map_iff in Hin as (j' & <- & Hj').
    cbn in Hj. subst j'. exact Hj'.
  - intros Hj. split; [discriminate|]. exists row. split; [exact Hrow|].
    split; [exact Hkept|].
    exists {| studentName := name_of_row row; projectIndex := j;
              weight := weight_at weights k j |}.
    split; [|split; [apply name_of_row_trimmed | reflexivity]].
    assert (In {| studentName := name_of_row row; projectIndex := j;
                  weight := weight_at weights k j |}
              (assignments_named (name_of_row row)
                 (extract_assignments result students weights (length students)
                    numProjects))) as Hin.
    { rewrite Hnamed. apply in_map_iff. exists j. split; [reflexivity | exact Hj]. }
    unfold assignments_named in Hin. apply filter_In in Hin as [Hin _]. exact Hin.
Qed.

End HighlightFacts.

Lemma X4_witness :
  let highs := fun _ : string => Solved sample_result in
  let row := [CStr " Bo "; CStr "n/a"; CNum (Fin 3)] in
  (canSolve sample_props = true /\ rawData sample_props !! 3 = Some (Some row))
  /\ exists k,
       fst (extract (RT := RefRuntime.runtime) (rawData sample_props)
              (headers sample_props)) !! k
       = Some (name_of_row (RT := RefRuntime.runtime) row)
       /\ forall j,
            FileUpload.isCellHighlighted (RT := RefRuntime.runtime)
              (Some (App_solution
                       (solve (RT := RefRuntime.runtime) sample_props highs initial_state)))
              (rawData sample_props) 3 (S j) = true
            <-> j < length (projectLimits sample_props)
                /\ primal_above_half (column_of sample_result (varName k j)) = true.
Proof.
  intros highs row. split; [split; reflexivity|].
  assert (NoDup (fst (extract (RT := RefRuntime.runtime) (rawData sample_props)
                        (headers sample_props)))) as Hnodup.
  { vm_compute. apply NoDup_cons. split; [|apply NoDup_singleton].
    intros Hin%list_elem_of_In. destruct Hin as [Heq|[]]. discriminate Heq. }
  exact (X4_highlight_after_solve (RT := RefRuntime.runtime) sample_props highs
           initial_state sample_result 3 row eq_refl eq_refl eq_refl Hnodup
           eq_refl eq_refl).
Defined.

(** ** The summary by project *)

Lemma students_assigned_cons (a : Assignment) (l : list Assignment) (j : nat) :
  students_assigned (a :: l) j
  = (if projectIndex a =? j then 1 else 0) + students_assigned l j.
Proof.
  unfold students_assigned. cbn [List.filter].
  destruct (projectIndex a =? j); reflexivity.
Qed.

Lemma list_sum_indicator (k n : nat) :
  k < n -> list_sum (map (fun j => if k =? j then 1 else 0) (seq 0 n)) = 1.
Proof.
  intros Hk.
  enough (forall b, list_sum (map (fun j => if k =? j then 1 else 0) (seq b n))
                    = if (b <=? k) && (k <? b + n) then 1 else 0) as H.
  { rewrite H. cbn [Nat.leb]. apply Nat.ltb_lt in Hk. cbn [Nat.add andb].
    rewrite Hk. reflexivity. }
  clear Hk. induction n as [|n IH]; intros b.
  - cbn [seq map]. change (list_sum []) with 0.
    destruct (Nat.leb_spec b k), (Nat.ltb_spec k (b + 0)); simpl; lia.
  - cbn [seq map]. change (list_sum (?x :: ?l)) with (x + list_sum l). rewrite IH.
    destruct (Nat.eqb_spec k b), (Nat.leb_spec (S b) k), (Nat.ltb_spec k (S b + n)),
      (Nat.leb_spec b k), (Nat.ltb_spec k (b + S n)); simpl; lia.
Qed.

Lemma list_sum_map_add (f g : nat -> nat) (l : list nat) :
  list_sum (map (fun j => f j + g j) l) = list_sum (map f l) + list_sum (map g l).
Proof.
  induction l as [|x l IH]; [reflexivity|].
  cbn [map]. change (list_sum (?x :: ?l)) with (x + list_sum l). rewrite IH. lia.
Qed.

Lemma students_assigned_total (l : list Assignment) (n : nat) :
  (forall a, In a l -> projectIndex a < n) ->
  list_sum (map (students_assigned l) (seq 0 n)) = length l.
Proof.
  induction l as [|a l IH]; intros Hall.
  - cbn [length]. induction (seq 0 n) as [|x xs IHx]; [reflexivity | exact IHx].
  - rewrite (map_ext _ _ (students_assigned_cons a l)), list_sum_map_add.
    rewrite list_sum_indicator by (apply Hall; left; reflexivity).
    rewrite IH by (intros b Hb; apply Hall; right; exact Hb). reflexivity.
Qed.

Lemma decoded_projects_in_range (result : RawResult) (students : list string)
    (weights : list (list number)) (numStudents numProjects : nat) (a : Assignment) :
  In a (extract_assignments result students weights numStudents numProjects) ->
  projectIndex a < numProjects.
Proof.
  rewrite extract_assignments_eq, in_flat_map. intros (i & _ & Ha).
  unfold emitted_for in Ha.
  destruct (students !! i) as [name|]; [|destruct Ha].
  destruct (weights !! i) as [ws|]; [|destruct Ha].
  destruct (String.eqb name ""); [destruct Ha|].
  rewrite student_assignments_eq in Ha. cbn [app] in Ha.
  apply in_map_iff in Ha as (j & <- & Hj). apply in_crossing in Hj as [Hj _]. exact Hj.
Qed.

(** X5. Every decoded assignment names a project of the model, so the
    counts shown in the summary by project, one row per project limit, add
    up to the number of assignments: no assignment is left out of the
    summary and none is counted twice. *)
Theorem X5_summary_counts_add_up (result : RawResult) (students : list string)
    (weights : list (list number)) (numStudents numProjects : nat) :
  let solution :=
    extract_assignments result students weights numStudents numProjects in
  (forall a, In a solution -> projectIndex a < numProjects)
  /\ list_sum (map (students_assigned solution) (seq 0 numProjects)) = length solution
  /\ (forall j, numProjects <= j -> students_assigned solution j = 0).
Proof.
  intros solution.
  assert (forall a, In a solution -> projectIndex a < numProjects) as Hrange.
  { intros a. apply decoded_projects_in_range. }
  split; [exact Hrange|]. split; [apply students_assigned_total, Hrange|].
  intros j Hj. unfold students_assigned.
  rewrite filter_none; [reflexivity|].
  intros a Ha. apply Hrange in Ha. apply Nat.eqb_neq. lia.
Qed.

(** ** Loading a sheet *)

Lemma for_range_S {S : Type} (n : nat) (body : nat -> S -> S) (s : S) :
  for_range 0 (Datatypes.S n) body s = body n (for_range 0 n body s).
Proof.
  unfold for_range. rewrite !Nat.sub_0_r, seq_S, fold_left_app. reflexivity.
Qed.

Lemma fold_left_push_map {A B : Type} (f : A -> B) (l : list A) (acc : list B) :
  fold_left (fun acc x => push acc (f x)) l acc = acc ++ map f l.
Proof.
  revert acc. induction l as [|x l IH]; intros acc; cbn.
  - symmetry. apply app_nil_r.
  - rewrite IH. unfold push. rewrite <- app_assoc. reflexivity.
Qed.

Lemma obj_set_fresh (o : ExcelRow) (k : string) (v : cell) :
  (forall kv, In kv o -> fst kv <> k) -> obj_set o k v = o ++ [(k, v)].
Proof.
  induction o as [|[k' v'] o IH]; intros Hfresh; [reflexivity|].
  cbn [obj_set app].
  assert (String.eqb k' k = false) as ->.
  { apply String.eqb_neq. apply (Hfresh (k', v')). left. reflexivity. }
  f_equal. apply IH. intros kv Hin. apply Hfresh. right. exact Hin.
Qed.

Lemma obj_get_map (key : nat -> string) (val : nat -> cell) (b n c : nat) :
  (forall x y, key x = key y -> x = y) ->
  b <= c < b + n ->
  obj_get (map (fun x => (key x, val x)) (seq b n)) (key c) = Some (val c).
Proof.
  intros Hinj. revert b. induction n as [|n IH]; intros b Hc; [lia|].
  cbn [seq map obj_get]. destruct (String.eqb (key b) (key c)) eqn:Hk.
  - apply String.eqb_eq, Hinj in Hk. subst b. reflexivity.
  - apply IH. apply String.eqb_neq in Hk.
    assert (b <> c) by (intros ->; congruence). lia.
Qed.

Lemma header_name_inj (i i' : nat) :
  "Column " +:+ pretty (i + 1) = "Column " +:+ pretty (i' + 1) -> i = i'.
Proof.
  intros H. apply String.app_inj in H. apply pretty_nat_inj in H. lia.
Qed.

Lemma default_headers_eq (n : nat) :
  FileUpload.default_headers n = map (fun i => "Column " +:+ pretty (i + 1)) (seq 0 n).
Proof. unfold FileUpload.default_headers. apply collect_names. Qed.

Lemma default_headers_lookup (n c : nat) :
  c < n -> FileUpload.default_headers n !! c = Some ("Column " +:+ pretty (c + 1)).
Proof.
  intros Hc. rewrite default_headers_eq.
  change (map ?f ?l) with (f <$> l). rewrite list_lookup_fmap, lookup_seq_lt by exact Hc.
  reflexivity.
Qed.

Lemma row_object_eq (n : nat) (rowData : list cell) :
  FileUpload.row_object (FileUpload.default_headers n) rowData
  = map (fun c => ("Column " +:+ pretty (c + 1),
                   nullish_or (row_get rowData c) (CStr ""))) (seq 0 n).
Proof.
  unfold FileUpload.row_object.
  assert (length (FileUpload.default_headers n) = n) as ->.
  { rewrite default_headers_eq, length_map, length_seq. reflexivity. }
  enough (forall m, m <= n ->
            for_range 0 m
              (fun colIndex row =>
                 match FileUpload.default_headers n !! colIndex with
                 | Some header =>
                     obj_set row header (nullish_or (row_get rowData colIndex) (CStr ""))
                 | None => row
                 end) []
            = map (fun c => ("Column " +:+ pretty (c + 1),
                             nullish_or (row_get rowData c) (CStr ""))) (seq 0 m)) as H
    by (apply H; lia).
  induction m as [|m IH]; intros Hm; [reflexivity|].
  rewrite for_range_S, IH by lia. rewrite default_headers_lookup by lia.
  rewrite obj_set_fresh.
  - rewrite seq_S, map_app. reflexivity.
  - intros kv (c & <- & [_ Hc]%in_seq)%in_map_iff. cbn [fst]. intros Heq.
    apply header_name_inj in Heq. lia.
Qed.

Lemma row_objects_eq (headers : list string) (arrayData : list (option (list cell))) :
  FileUpload.row_objects headers arrayData
  = map (fun r => FileUpload.row_object headers
                    match r with Some row => row | None => [] end) arrayData.
Proof.
  unfold FileUpload.row_objects.
  rewrite (for_range_lookup arrayData
             (fun o rows =>
                push rows (FileUpload.row_object headers
                             match o with Some (Some r) => r | _ => [] end))).
  rewrite (fold_left_push_map
             (fun r => FileUpload.row_object headers
                         match r with Some row => row | None => [] end)).
  reflexivity.
Qed.

Lemma maxColumns_bound (arrayData : list (option (list cell))) (r : nat)
    (row : list cell) :
  arrayData !! r = Some (Some row) -> length row <= FileUpload.maxColumns arrayData.
Proof.
  intros Hr. unfold FileUpload.maxColumns.
  assert ((0 <? length arrayData) = true) as ->.
  { apply Nat.ltb_lt. apply lookup_lt_Some in Hr. lia. }
  revert r Hr. induction arrayData as [|x l IH]; intros r Hr; [discriminate|].
  cbn [map foldr]. destruct r as [|r]; cbn in Hr.
  - injection Hr as ->. lia.
  - specialize (IH r Hr). lia.
Qed.

(** X6. Once a sheet is read, there is one header [Column c+1] per
    column of its widest row, all different; no row is wider than the
    headers; the table has one object per row of the sheet; and the object
    of row [r] holds, under the header of each column [c], the cell of the
    sheet at [(r, c)], or the empty string where the sheet has none. *)
Theorem X6_loaded_sheet (name : string) (arrayData : list (option (list cell))) :
  let refs := FileUpload.loaded name arrayData in
  length (FileUpload.headers refs) = FileUpload.numberOfColumns refs
  /\ List.NoDup (FileUpload.headers refs)
  /\ (forall r row, arrayData !! r = Some (Some row) ->
        length row <= FileUpload.numberOfColumns refs)
  /\ length (FileUpload.tableData refs) = length arrayData
  /\ FileUpload.rawData refs = arrayData
  /\ (forall r rowData c,
        arrayData !! r = Some rowData ->
        c < FileUpload.numberOfColumns refs ->
        exists obj,
          FileUpload.tableData refs !! r = Some obj
          /\ FileUpload.headers refs !! c = Some ("Column " +:+ pretty (c + 1))
          /\ length obj = FileUpload.numberOfColumns refs
          /\ obj_get obj ("Column " +:+ pretty (c + 1))
             = Some (nullish_or
                       (row_get (match rowData with Some row => row | None => [] end) c)
                       (CStr ""))).
Proof.
  cbv zeta. unfold FileUpload.loaded.
  cbn [FileUpload.headers FileUpload.numberOfColumns FileUpload.tableData
       FileUpload.rawData].
  set (n := FileUpload.maxColumns arrayData).
  split; [rewrite default_headers_eq, length_map, length_seq; reflexivity|].
  split.
  { rewrite default_headers_eq. apply NoDup_map_injective; [|apply seq_NoDup].
    intros x y. apply header_name_inj. }
  split; [intros r row; apply maxColumns_bound|].
  split; [rewrite row_objects_eq; apply length_map|].
  split; [reflexivity|].
  intros r rowData c Hr Hc.
  exists (FileUpload.row_object (FileUpload.default_headers n)
            match rowData with Some row => row | None => [] end).
  split.
  { rewrite row_objects_eq. change (map ?f ?l) with (f <$> l).
    rewrite list_lookup_fmap, Hr. reflexivity. }
  split; [apply default_headers_lookup, Hc|].
  rewrite row_object_eq. split; [rewrite length_map, length_seq; reflexivity|].
  apply (obj_get_map (fun c => "Column " +:+ pretty (c + 1))
           (fun c => nullish_or
                       (row_get (match rowData with Some row => row | None => [] end) c)
                       (CStr ""))).
  - intros x y. apply header_name_inj.
  - lia.
Qed.

(** ** From the sheet to the guard of [solve] *)

Lemma initial_limits_length (n : nat) : length (initial_limits n) = n.
Proof.
  unfold initial_limits. destruct n; [reflexivity|].
  cbn [Nat.ltb Nat.leb]. apply length_replicate.
Qed.

Lemma maxColumns_nil_rows (arrayData : list (option (list cell))) :
  0 < FileUpload.maxColumns arrayData -> 0 < length arrayData.
Proof.
  unfold FileUpload.maxColumns. destruct arrayData; cbn; lia.
Qed.

Lemma loaded_lengths (name : string) (arrayData : list (option (list cell))) :
  length (FileUpload.headers (FileUpload.loaded name arrayData))
  = FileUpload.maxColumns arrayData
  /\ length (FileUpload.tableData (FileUpload.loaded name arrayData)) = length arrayData.
Proof.
  unfold FileUpload.loaded. cbn [FileUpload.headers FileUpload.tableData]. split.
  - rewrite default_headers_eq, length_map, length_seq. reflexivity.
  - rewrite row_objects_eq. apply length_map.
Qed.

(** X7. When the limits agree with the sheet before (as they do on
    mount), they agree after a file is loaded: App.vue and the watcher of
    ProjectConfig leave one pair of limits per project column.  The solver
    can then be started exactly when the sheet has a row with at least two
    columns; after a file that cannot be read it cannot be started. *)
Theorem X7_loading_enables_solve (name : string)
    (arrayData : list (option (list cell))) (app : App) :
  wired app ->
  let app' := file_loaded name arrayData app in
  wired app'
  /\ length (projectLimits (LPSolver_props app'))
     = numberOfProjects (FileUpload.maxColumns arrayData)
  /\ (canSolve (LPSolver_props app') = true <-> 2 <= FileUpload.maxColumns arrayData)
  /\ wired (file_failed app)
  /\ canSolve (LPSolver_props (file_failed app)) = false.
Proof.
  intros (Hlim & Hcols & Hhead) app'.
  assert (forall refs,
            length (App_projectLimits (columns_changed refs app))
            = numberOfProjects (FileUpload.numberOfColumns refs)) as Hlen.
  { intros refs. unfold columns_changed. cbn [App_projectLimits].
    destruct (Nat.eqb_spec (numberOfProjects (App_numberOfColumns app))
                (numberOfProjects (FileUpload.numberOfColumns refs))) as [Heq|_].
    - rewrite <- Heq. exact Hlim.
    - apply initial_limits_length. }
  destruct (loaded_lengths name arrayData) as [Hh Ht].
  split.
  { split; [apply Hlen|]. split; [reflexivity | exact Hh]. }
  split; [apply Hlen|].
  split.
  { unfold canSolve. cbn [tableData projectLimits headers LPSolver_props].
    subst app'. unfold file_loaded. rewrite Hlen.
    cbn [upload columns_changed]. rewrite Hh, Ht.
    cbn [FileUpload.numberOfColumns FileUpload.loaded].
    pose proof (maxColumns_nil_rows arrayData) as Hrows.
    rewrite !andb_true_iff, !Nat.ltb_lt, Z.eqb_eq. unfold numberOfProjects.
    destruct (Nat.ltb_spec 0 (FileUpload.maxColumns arrayData)); lia. }
  split.
  { split; [apply Hlen|]. split; reflexivity. }
  reflexivity.
Qed.

Lemma X7_witness :
  wired App_mounted
  /\ canSolve (LPSolver_props (file_loaded "sheet.xlsx" (rawData sample_props) App_mounted))
     = true.
Proof.
  assert (wired App_mounted) as H by (repeat split).
  split; [exact H|].
  destruct (X7_loading_enables_solve "sheet.xlsx" (rawData sample_props) App_mounted H)
    as (_ & _ & Hiff & _).
  apply Hiff. cbn. lia.
Defined.

(** ** Editing the limits *)

Lemma num_or_zero_not_NaN (n : number) : num_or n zero <> NaN.
Proof. unfold num_or. destruct n; cbn; try discriminate. destruct (negb _); discriminate. Qed.

Lemma updateMin_length (limits : list ProjectLimits) (i : nat) (value : number) :
  length (updateMin limits i value) = length limits.
Proof. unfold updateMin. destruct (limits !! i); [apply length_insert | reflexivity]. Qed.

Lemma updateMax_length (limits : list ProjectLimits) (i : nat) (value : number) :
  length (updateMax limits i value) = length limits.
Proof. unfold updateMax. destruct (limits !! i); [apply length_insert | reflexivity]. Qed.

(** X8. [updateMin] and [updateMax], called with a value that is not
    NaN on limits with [0 <= min <= max], change the limits of the one
    project only, keep the number of projects, and leave
    [0 <= min <= max] everywhere: the edited bound becomes
    [Math.max(0, value)] and the other bound moves to it when the two would
    cross.  An index with no project changes nothing. *)
Theorem X8_updates_keep_limits_ordered (limits : list ProjectLimits) (i : nat)
    (value : number) :
  value <> NaN ->
  Forall (fun l => project_invariant l = true) limits ->
  (length (updateMin limits i value) = length limits
   /\ Forall (fun l => project_invariant l = true) (updateMin limits i value)
   /\ (forall j, j <> i -> updateMin limits i value !! j = limits !! j)
   /\ (limits !! i = None -> updateMin limits i value = limits)
   /\ (forall l, limits !! i = Some l ->
         exists l', updateMin limits i value !! i = Some l'
           /\ min l' = Math_max zero value
           /\ max l' = if num_gt (Math_max zero value) (max l)
                       then Math_max zero value else max l))
  /\ (length (updateMax limits i value) = length limits
      /\ Forall (fun l => project_invariant l = true) (updateMax limits i value)
      /\ (forall j, j <> i -> updateMax limits i value !! j = limits !! j)
      /\ (limits !! i = None -> updateMax limits i value = limits)
      /\ (forall l, limits !! i = Some l ->
            exists l', updateMax limits i value !! i = Some l'
              /\ max l' = Math_max zero value
              /\ min l' = if num_lt (Math_max zero value) (min l)
                          then Math_max zero value else min l)).
Proof.
  intros Hv Hinv. split.
  - split; [apply updateMin_length|].
    split; [apply updateMin_invariant; assumption|].
    split.
    { intros j Hj. unfold updateMin. destruct (limits !! i); [|reflexivity].
      apply list_lookup_insert_ne. congruence. }
    split; [intros Hnone; unfold updateMin; rewrite Hnone; reflexivity|].
    intros l Hl. unfold updateMin. rewrite Hl. cbv zeta. cbn [min max].
    eexists. split.
    { apply list_lookup_insert_eq. eapply lookup_lt_Some. exact Hl. }
    destruct (num_gt (Math_max zero value) (max l)); split; reflexivity.
  - split; [apply updateMax_length|].
    split; [apply updateMax_invariant; assumption|].
    split.
    { intros j Hj. unfold updateMax. destruct (limits !! i); [|reflexivity].
      apply list_lookup_insert_ne. congruence. }
    split; [intros Hnone; unfold updateMax; rewrite Hnone; reflexivity|].
    intros l Hl. unfold updateMax. rewrite Hl. cbv zeta. cbn [min max].
    eexists. split.
    { apply list_lookup_insert_eq. eapply lookup_lt_Some. exact Hl. }
    destruct (num_lt (Math_max zero value) (min l)); split; reflexivity.
Qed.

Lemma X8_witness :
  Fin (-3) <> NaN
  /\ updateMax [default_limits; {| min := Fin 4; max := Fin 10 |}] 1 (Fin 2)
     = [default_limits; {| min := Fin 2; max := Fin 2 |}]
  /\ updateMin [default_limits] 0 (Fin (-3)) !! 0 = Some default_limits.
Proof.
  assert (Fin (-3) <> NaN) as H3 by discriminate.
  assert (Fin 2 <> NaN) as H2 by discriminate.
  split; [exact H3|]. split; [reflexivity|].
  destruct (X8_updates_keep_limits_ordered [default_limits] 0 (Fin (-3)) H3
              (default_limits_invariant 1)) as [(_ & _ & _ & _ & Hmin) _].
  destruct (Hmin default_limits eq_refl) as ([m x] & Hl' & Hm & Hx).
  rewrite Hl'. cbn in Hm, Hx. rewrite Hm, Hx. reflexivity.
Defined.

(** X9. Whatever text is typed into a bound, and whichever of the four
    step buttons is pressed, the limits keep [0 <= min <= max] and their
    number: the handlers pass [parseInt(..) || 0] or the current bound
    [|| 0] moved by one, which is never NaN as long as adding or subtracting
    one does not turn a number into NaN. *)
Theorem X9_handlers_keep_limits_ordered (parseInt : string -> number)
    (minus_one plus_one : number -> number) (limits : list ProjectLimits)
    (text : string) (i : nat) :
  (forall n, n <> NaN -> minus_one n <> NaN /\ plus_one n <> NaN) ->
  Forall (fun l => project_invariant l = true) limits ->
  Forall (fun l => Forall (fun p => project_invariant p = true) l
                   /\ length l = length limits)
    [ handleMinInput parseInt limits text i;
      handleMaxInput parseInt limits text i;
      decrementMin minus_one limits i;
      incrementMin plus_one limits i;
      decrementMax minus_one limits i;
      incrementMax plus_one limits i ].
Proof.
  intros Hstep Hinv.
  assert (forall bound, current_bound bound limits i <> NaN) as Hcur.
  { intros bound. unfold current_bound.
    destruct (limits !! i); [apply num_or_zero_not_NaN | discriminate]. }
  repeat constructor;
    unfold handleMinInput, handleMaxInput, decrementMin, incrementMin,
      decrementMax, incrementMax;
    try apply updateMin_length; try apply updateMax_length;
    try (apply updateMin_invariant; [|exact Hinv]);
    try (apply updateMax_invariant; [|exact Hinv]);
    try apply num_or_zero_not_NaN; apply Hstep, Hcur.
Qed.

Lemma X9_witness :
  let step := fun d n => match n with Fin q => Fin (q + d) | _ => n end in
  let parseInt := fun s : string => RefRuntime.parse_number s in
  decrementMin (step (-1)%Q) [default_limits] 0 = [default_limits]
  /\ handleMinInput parseInt [default_limits] "12" 0
     = [ {| min := Fin 12; max := Fin 12 |} ]
  /\ Forall (fun p => project_invariant p = true)
       (handleMaxInput parseInt [default_limits] "abc" 0).
Proof.
  intros step parseInt.
  split; [vm_compute; reflexivity|]. split; [vm_compute; reflexivity|].
  assert (forall n, n <> NaN -> step (-1)%Q n <> NaN /\ step 1%Q n <> NaN) as Hstep.
  { intros [| | |q] Hn; split; try discriminate; congruence. }
  pose proof (X9_handlers_keep_limits_ordered parseInt (step (-1)%Q) (step 1%Q)
                [default_limits] "abc" 0 Hstep (default_limits_invariant 1)) as H.
  apply Forall_cons in H as [_ H]. apply Forall_cons in H as [[H _] _]. exact H.
Defined.

(** ** What [solve] leaves on the screen *)

Section ScreenFacts.

Context `{RT : JsRuntime}.

Lemma string_or_nonempty (s : option string) (d : string) :
  d <> "" -> String.eqb (string_or s d) "" = false.
Proof.
  intros Hd. unfold string_or. destruct s as [v|].
  - destruct (String.eqb v "") eqn:Hv; [apply String.eqb_neq, Hd | exact Hv].
  - apply String.eqb_neq, Hd.
Qed.

(** X10. When the component and App.vue both hold an empty solution (as
    after the watcher has run on a change of the data or of the limits),
    they hold the same solution again after [solve], on every path: the
    guard, a throw, a rejected status and an accepted one. *)
Theorem X10_solve_from_cleared_state_in_sync (P : Props) (highs : Solver) (st : State) :
  solution st = [] -> App_solution st = [] ->
  App_solution (solve P highs st) = solution (solve P highs st).
Proof.
  intros Hsol Happ. destruct (canSolve P) eqn:Hcan.
  - rewrite (solve_guard_open _ _ _ Hcan). unfold try_block.
    destruct (extract (rawData P) (headers P)) as [students weights].
    rewrite after_extraction_cases.
    destruct (length students =? 0); [cbn; exact Happ|].
    destruct (existsb _ weights); [cbn; exact Happ|].
    cbv zeta. destruct (highs _) as [e|e|r]; [cbn; exact Happ | cbn; exact Happ|].
    rewrite decode_branches.
    destruct (isOptimalOrFeasible (string_or (Status r) "")); reflexivity.
  - rewrite (solve_guard_closed _ _ _ Hcan). cbn. congruence.
Qed.

(** X11. A [solve] that passes the guard always ends with the button
    enabled again ([isSolving] false).  If something was thrown, the error
    box shows its message (no box at all for an empty message) and neither
    status nor assignments are shown; if the solver returned, exactly one
    box is shown: the status box for an accepted status, the error box
    otherwise. *)
Theorem X11_feedback_after_solve (P : Props) (highs : Solver) (st : State) :
  canSolve P = true ->
  let st' := solve P highs st in
  isSolving st' = false
  /\ button_disabled P st' = false
  /\ (forall e, fst (try_block P highs (reset st)) = inl e ->
        error_box_shown st' = negb (String.eqb (message_of e) "")
        /\ status_box_shown st' = false
        /\ solution st' = [] /\ objectiveValue st' = None)
  /\ (forall r,
        fst (extract (rawData P) (headers P)) <> [] ->
        highs (formulate (snd (extract (rawData P) (headers P))) (projectLimits P)
                 (length (fst (extract (rawData P) (headers P))))
                 (length (projectLimits P))) = Solved r ->
        status_box_shown st' = isOptimalOrFeasible (string_or (Status r) "")
        /\ error_box_shown st' = negb (isOptimalOrFeasible (string_or (Status r) ""))).
Proof.
  intros Hcan st'.
  assert (isSolving st' = false) as Hdone.
  { subst st'. rewrite (solve_guard_open _ _ _ Hcan). reflexivity. }
  split; [exact Hdone|].
  split; [unfold button_disabled; rewrite Hcan, Hdone; reflexivity|].
  split.
  - intros e He.
    destruct (solve_caught P highs st e Hcan He) as (Hmsg & _ & Hsol & Hobj & Hstat & _).
    fold st' in Hmsg, Hsol, Hobj, Hstat.
    unfold status_box_shown, error_box_shown. rewrite Hmsg, Hstat. auto.
  - intros r Hne Hsolved. subst st'.
    rewrite (solve_reaches_decode P highs st r Hcan Hne Hsolved), decode_branches.
    unfold status_box_shown, error_box_shown.
    destruct (isOptimalOrFeasible (string_or (Status r) "")).
    + cbn [snd accepted_state set_isSolving emit_solution_updated set_solution
           set_objectiveValue set_solveStatus record_solver_input reset
           set_errorMessage errorMessage solveStatus].
      rewrite string_or_nonempty by discriminate. split; reflexivity.
    + cbn [snd rejected_state set_isSolving emit_solution_updated set_solveStatus
           record_solver_input reset set_errorMessage errorMessage solveStatus].
      rewrite string_or_nonempty by discriminate. split; reflexivity.
Qed.

End ScreenFacts.

Lemma X10_witness :
  let st := on_inputs_changed
              (solve (RT := RefRuntime.runtime) sample_props
                 (fun _ => Solved sample_result) initial_state) in
  (solution st = [] /\ App_solution st = [])
  /\ App_solution (solve (RT := RefRuntime.runtime) sample_props
                     (fun _ => LoadFailed ThrownOther) st)
     = solution (solve (RT := RefRuntime.runtime) sample_props
                   (fun _ => LoadFailed ThrownOther) st).
Proof.
  intros st. split; [split; reflexivity|].
  apply X10_solve_from_cleared_state_in_sync; reflexivity.
Defined.

Lemma X11_witness :
  canSolve sample_props = true
  /\ status_box_shown
       (solve (RT := RefRuntime.runtime) sample_props (fun _ => Solved sample_result)
          initial_state)
     = true.
Proof.
  split; [reflexivity|].
  destruct (X11_feedback_after_solve (RT := RefRuntime.runtime) sample_props
              (fun _ => Solved sample_result) initial_state eq_refl)
    as (_ & _ & _ & Hret).
  destruct (Hret sample_result) as [Hbox _]; [discriminate | reflexivity|].
  exact Hbox.
Defined.

(** ** Which rows are students *)

Lemma trim_empty_iff (s : string) : trim s = "" <-> only_white_space s = true.
Proof.
  unfold trim. induction s as [|c s IH]; [split; reflexivity|].
  cbn [trimStart only_white_space]. destruct (is_white_space c) eqn:Hc; [exact IH|].
  rewrite trimEnd_cons, Hc. cbn [andb].
  destruct (trimEnd s); split; discriminate.
Qed.

Section RowFacts.

Context `{RT : JsRuntime}.

(** X12. Whether a non-empty row is a student depends on its first cell
    only: a text cell makes a student unless it is empty or white space
    only, and the cells [undefined], [null], [false], 0 and NaN never do
    (a student named 0 is dropped); the name kept is trimmed, so trimming
    it again changes nothing. *)
Theorem X12_first_cell_decides (c : cell) (rest : list cell) :
  (forall s, c = CStr s ->
     row_is_skipped (Some (c :: rest)) = only_white_space s
     /\ name_of_row (c :: rest) = trim s)
  /\ (cell_truthy c = false -> row_is_skipped (Some (c :: rest)) = true)
  /\ (c = CBool true -> row_is_skipped (Some (c :: rest)) = false
                        /\ name_of_row (c :: rest) = "true")
  /\ trim (name_of_row (c :: rest)) = name_of_row (c :: rest)
  /\ row_is_skipped (Some []) = true
  /\ row_is_skipped None = true.
Proof.
  split.
  { intros s ->. unfold row_is_skipped, name_of_row, row_get. cbn [length Nat.eqb orb].
    cbn [lookup list_lookup default id cell_truthy from_option].
    assert (String_of (if negb (String.eqb s "") then CStr s else CStr "") = s) as ->.
    { destruct (String.eqb s "") eqn:Hs; cbn; [|reflexivity].
      apply String.eqb_eq in Hs. congruence. }
    split; [|reflexivity].
    apply eq_true_iff_eq. rewrite String.eqb_eq. apply trim_empty_iff. }
  split.
  { intros Hc. unfold row_is_skipped, name_of_row, row_get.
    cbn [length Nat.eqb orb lookup list_lookup default id from_option].
    rewrite Hc. reflexivity. }
  split; [intros ->; split; reflexivity|].
  split; [apply name_of_row_trimmed|].
  split; reflexivity.
Qed.

End RowFacts.
